(** * The transcription pipeline of run_whisper_cpp_demo_gui.py

    A shallow embedding of the pipeline functions of the Streamlit demo
    ([prepare_audio_file], [download_youtube_audio], [build_command],
    [run_whisper_cli], [save_uploaded_file], the "start" branch of
    [main] and [load_config]) together with the properties the
    specification states about them and further properties read off the
    code.

    Python values are modelled as follows.
    - A [str] is the list of its Unicode code points ([list N]).
    - Exceptions are an inductive type; a function that may raise runs in
      a state-and-exception monad over the [World].
    - The [World] holds what the code can observe or change outside its
      own variables: the regular files on disk, [os.environ], the log
      of [subprocess.run] calls and the number of UUIDs drawn so far.
    - External programs (ffmpeg, yt-dlp, whisper-cli), the text codec and
      the configuration values are parameters of the development. *)

From Stdlib Require Import String Ascii NArith List Bool Lia.
From stdpp Require Import gmap list.

Local Open Scope N_scope.

(** ** Python strings *)

Module Py.

(** A Python [str]: the sequence of its code points. *)
Abbreviation str := (list N).

(** Bytes of a Rocq string literal (the literal is UTF-8 in this file). *)
Fixpoint bytes_of (s : string) : list N :=
  match s with
  | EmptyString => []
  | String a r => N_of_ascii a :: bytes_of r
  end.

(** Decoder for well-formed UTF-8, used only to write the source's string
    literals as they read in the source. *)
Fixpoint utf8_decode (bs : list N) : list N :=
  match bs with
  | [] => []
  | b0 :: r0 =>
    if b0 <? 128 then b0 :: utf8_decode r0
    else match r0 with
    | [] => []
    | b1 :: r1 =>
      if b0 <? 224 then
        (N.lor (N.shiftl (N.land b0 31) 6) (N.land b1 63)) :: utf8_decode r1
      else match r1 with
      | [] => []
      | b2 :: r2 =>
        if b0 <? 240 then
          (N.lor (N.shiftl (N.land b0 15) 12)
             (N.lor (N.shiftl (N.land b1 63) 6) (N.land b2 63)))
          :: utf8_decode r2
        else match r2 with
        | [] => []
        | b3 :: r3 =>
          (N.lor (N.shiftl (N.land b0 7) 18)
             (N.lor (N.shiftl (N.land b1 63) 12)
                (N.lor (N.shiftl (N.land b2 63) 6) (N.land b3 63))))
          :: utf8_decode r3
        end
      end
    end
  end.

Definition lit (s : string) : str := utf8_decode (bytes_of s).

(** [str.isspace] on one code point: the code points CPython's
    [Py_UNICODE_ISSPACE] accepts. *)
Definition isspace (c : N) : bool :=
  ((9 <=? c) && (c <=? 13)) || ((28 <=? c) && (c <=? 32))
  || (c =? 133) || (c =? 160) || (c =? 5760)
  || ((8192 <=? c) && (c <=? 8202))
  || (c =? 8232) || (c =? 8233) || (c =? 8239) || (c =? 8287)
  || (c =? 12288).

Fixpoint lstrip (s : str) : str :=
  match s with
  | [] => []
  | c :: r => if isspace c then lstrip r else s
  end.

Definition rstrip (s : str) : str := rev (lstrip (rev s)).

(** [s.strip()] *)
Definition strip (s : str) : str := rstrip (lstrip s).

(** Truthiness of a [str], and [a or b] on strings. *)
Definition truthy (s : str) : bool :=
  match s with [] => false | _ :: _ => true end.

Definition str_or (a b : str) : str := if truthy a then a else b.

(** Truthiness of an [Optional[str]]. *)
Definition opt_truthy (o : option str) : bool :=
  match o with None => false | Some s => truthy s end.

Definition is_ascii (s : str) : bool := forallb (fun c => c <? 128) s.

Definition ascii_lower_cp (c : N) : N :=
  if (65 <=? c) && (c <=? 90) then c + 32 else c.

Definition ascii_lower (s : str) : str := map ascii_lower_cp s.

(** [s.rfind('.')]: index of the last dot, if any. *)
Fixpoint rfind_dot (s : str) : option nat :=
  match s with
  | [] => None
  | c :: r =>
    match rfind_dot r with
    | Some i => Some (S i)
    | None => if c =? 46 then Some O else None
    end
  end.

Fixpoint startswith (p s : str) : bool :=
  match p, s with
  | [], _ => true
  | _ :: _, [] => false
  | a :: p', b :: s' => (a =? b) && startswith p' s'
  end.

(** [needle in hay] for strings. *)
Fixpoint contains (needle hay : str) : bool :=
  startswith needle hay ||
  match hay with
  | [] => false
  | _ :: r => contains needle r
  end.

End Py.
Import Py.

(** ** Exceptions, the world and the effect monad *)

(** The exception classes the pipeline raises or lets through.  The
    argument is what [str(exc)] gives. *)
Inductive exn : Type :=
| ValueError (msg : str)
| RuntimeError (msg : str)
| FileNotFoundError (msg : str)
| OSError (msg : str).

Definition exn_str (e : exn) : str :=
  match e with
  | ValueError m | RuntimeError m | FileNotFoundError m | OSError m => m
  end.

(** [subprocess.CompletedProcess] with [capture_output=True] and a text
    encoding: exit status and the two captured streams as [str]. *)
Record CompletedProcess : Type := mkCompleted {
  returncode : Z;
  stdout : str;
  stderr : str
}.

(** Why [subprocess.run] could not start the program:
    [FileNotFoundError] when the executable cannot be located, another
    [OSError] otherwise. *)
Inductive os_error : Type :=
| NotFound (msg : str)
| OtherOSError (msg : str).

Definition raise_os (e : os_error) : exn :=
  match e with
  | NotFound m => FileNotFoundError m
  | OtherOSError m => OSError m
  end.

(** What is outside the program.  [files] maps the string of a path to
    the bytes of the regular file there.  Directories are not tracked and
    calls on the file system do not fail for reasons of the operating
    system (permissions, locks).  [spawned] logs every [subprocess.run]
    call, oldest first, with its argument vector and the environment the
    child receives. *)
Record World : Type := mkWorld {
  files : gmap (list N) (list N);
  environ : gmap (list N) (list N);
  spawned : list (list (list N) * gmap (list N) (list N));
  uuids_drawn : nat
}.

(** What running a program did: it exited, leaving the files as [fs'],
    or it could not be started. *)
Inductive spawn_outcome : Type :=
| Exited (cp : CompletedProcess) (fs' : gmap (list N) (list N))
| SpawnError (e : os_error).

(** The host the script runs on: the external programs, the parts of the
    Python runtime that are table driven, and the values read from
    config.json at import time. *)
Record Host : Type := mkHost {
  (** [str.lower] on a string that is not pure ASCII (CPython's Unicode
      case tables). *)
  unicode_lower : str -> str;
  (** reading bytes in text mode with [encoding="utf-8"],
      [errors="replace"] *)
  decode_text : list N -> str;
  (** running argv with a given environment in a given world *)
  os_spawn : World -> list str -> gmap (list N) (list N) -> spawn_outcome;
  (** the n-th [uuid.uuid4().hex] *)
  uuid4_hex : nat -> str;
  (** [str(WHISPER_CLI)], [str(MODEL_PATH)], [str(YOUTUBE_DOWNLOAD_DIR)] *)
  WHISPER_CLI : str;
  MODEL_PATH : str;
  YOUTUBE_DOWNLOAD_DIR : str
}.

Inductive outcome (A : Type) : Type :=
| Returned (a : A)
| Raised (e : exn).
Arguments Returned {A} a.
Arguments Raised {A} e.

(** A computation that may change the world and may raise. *)
Definition M (A : Type) : Type := World -> outcome A * World.

Definition ret {A} (a : A) : M A := fun w => (Returned a, w).

Definition raise {A} (e : exn) : M A := fun w => (Raised e, w).

Definition bind {A B} (m : M A) (k : A -> M B) : M B :=
  fun w =>
    match m w with
    | (Returned a, w') => k a w'
    | (Raised e, w') => (Raised e, w')
    end.

(** [try: m  except ...: handler] *)
Definition try_except {A} (m : M A) (handler : exn -> M A) : M A :=
  fun w =>
    match m w with
    | (Returned a, w') => (Returned a, w')
    | (Raised e, w') => handler e w'
    end.

Declare Scope py_scope.
Delimit Scope py_scope with py.
Notation "'let*' x := m 'in' k" := (bind m (fun x => k))
  (at level 10, x name, m at level 100, k at level 200) : py_scope.
Local Open Scope py_scope.

(** ** pathlib *)

(** A path as pathlib parses it: the string of its parent and its final
    component. *)
Record Path : Type := mkPath {
  parent : str;
  name : str
}.

(** The separator of a Windows path, a backslash. *)
Definition sep : str := [92].

(** [str(p)] *)
Definition path_str (p : Path) : str := parent p ++ sep ++ name p.

(** [p.suffix]: the final component from its last dot on, unless that
    dot is its first or its last character. *)
Definition Path_suffix (p : Path) : str :=
  match rfind_dot (name p) with
  | Some i =>
    if (0 <? i)%nat && (i <? length (name p) - 1)%nat
    then drop i (name p) else []
  | None => []
  end.

(** [p.with_suffix(suffix)] for a well-formed [suffix] and a path with a
    final component, which is how the pipeline calls it. *)
Definition with_suffix (p : Path) (suffix : str) : Path :=
  let old_suffix := Path_suffix p in
  if truthy old_suffix
  then mkPath (parent p)
         (take (length (name p) - length old_suffix) (name p) ++ suffix)
  else mkPath (parent p) (name p ++ suffix).

(** [p.exists()] *)
Definition Path_exists (p : str) : M bool :=
  fun w => (Returned (bool_decide (is_Some (files w !! p))), w).

(** [p.unlink(missing_ok=True)] *)
Definition unlink_missing_ok (p : str) : M unit :=
  fun w => (Returned tt,
            mkWorld (delete p (files w)) (environ w) (spawned w) (uuids_drawn w)).

(** [p.mkdir(parents=True, exist_ok=True)]: directories are not part of
    the world, so nothing observable changes. *)
Definition mkdir_parents_exist_ok (p : str) : M unit := ret tt.

(** [with open(p, "wb") as f: f.write(data)] *)
Definition write_bytes (p : str) (data : list N) : M unit :=
  fun w => (Returned tt,
            mkWorld (<[p := data]> (files w)) (environ w) (spawned w)
              (uuids_drawn w)).

(** ** subprocess, os.environ, uuid *)

(** [subprocess.run(cmd, capture_output=True, encoding="utf-8",
    errors="replace", env=env)].  With [env] omitted the child inherits
    [os.environ]. *)
Definition subprocess_run (h : Host) (cmd : list str)
    (env : option (gmap (list N) (list N))) : M CompletedProcess :=
  fun w =>
    let child_env := match env with Some e => e | None => environ w end in
    let log := spawned w ++ [(cmd, child_env)] in
    match os_spawn h w cmd child_env with
    | Exited cp fs' =>
      (Returned cp, mkWorld fs' (environ w) log (uuids_drawn w))
    | SpawnError e =>
      (Raised (raise_os e), mkWorld (files w) (environ w) log (uuids_drawn w))
    end.

(** [os.environ.copy()] *)
Definition os_environ_copy : M (gmap (list N) (list N)) :=
  fun w => (Returned (environ w), w).

(** [uuid.uuid4().hex] *)
Definition uuid4 (h : Host) : M str :=
  fun w => (Returned (uuid4_hex h (uuids_drawn w)),
            mkWorld (files w) (environ w) (spawned w) (S (uuids_drawn w))).

(** ** The pipeline functions *)

(** [s.lower()]: CPython lowers a pure-ASCII string byte by byte and
    goes through the Unicode tables otherwise. *)
Definition str_lower (h : Host) (s : str) : str :=
  if is_ascii s then ascii_lower s else unicode_lower h s.

(** The set literal of [prepare_audio_file]. *)
Definition ALLOWED_SUFFIXES : list str :=
  [lit ".wav"; lit ".mp3"; lit ".mp4"; lit ".m4a"].

Definition MSG_UNSUPPORTED : str :=
  Eval vm_compute in lit "지원하지 않는 파일 형식입니다: ".
Definition MSG_FFMPEG_MISSING : str :=
  Eval vm_compute in
    lit "ffmpeg 명령을 찾을 수 없습니다. 서버 환경에 설치되어 있는지 확인하세요.".
Definition MSG_FFMPEG_GENERIC : str :=
  Eval vm_compute in lit "ffmpeg 변환에 실패했습니다.".
Definition MSG_FFMPEG_FAILED : str :=
  Eval vm_compute in lit "ffmpeg 변환 실패: ".

(** [stderr or stdout or fallback] after stripping both streams. *)
Definition diagnostic (cp : CompletedProcess) (fallback : str) : str :=
  let stderr := strip (stderr cp) in
  let stdout := strip (stdout cp) in
  str_or (str_or stderr stdout) fallback.

Definition ffmpeg_cmd (input_path output_path : Path) : list str :=
  [lit "ffmpeg"; lit "-y"; lit "-i"; path_str input_path; lit "-vn";
   path_str output_path].

Definition prepare_audio_file (h : Host) (input_path : Path) : M Path :=
  let suffix := str_lower h (Path_suffix input_path) in
  if negb (bool_decide (suffix ∈ ALLOWED_SUFFIXES)) then
    raise (ValueError (MSG_UNSUPPORTED ++ suffix))
  else if bool_decide (suffix = lit ".wav") then
    ret input_path
  else
    let output_path := with_suffix input_path (lit ".wav") in
    let cmd := ffmpeg_cmd input_path output_path in
    let* result :=
      try_except (subprocess_run h cmd None)
        (fun exc =>
           match exc with
           | FileNotFoundError _ => raise (RuntimeError MSG_FFMPEG_MISSING)
           | _ => raise exc
           end) in
    let* failed :=
      (if negb (returncode result =? 0)%Z then ret true
       else let* present := Path_exists (path_str output_path) in
            ret (negb present)) in
    if failed then
      let* _ := unlink_missing_ok (path_str output_path) in
      let msg := diagnostic result MSG_FFMPEG_GENERIC in
      raise (RuntimeError (MSG_FFMPEG_FAILED ++ msg))
    else
      ret output_path.

Definition MSG_YTDLP_MISSING : str :=
  Eval vm_compute in
    lit "yt-dlp 명령을 찾을 수 없습니다. 서버 환경에 설치되어 있는지 확인하세요.".
Definition MSG_YTDLP_FAILED : str :=
  Eval vm_compute in lit "yt-dlp 다운로드 실패: ".
Definition MSG_YTDLP_GENERIC : str :=
  Eval vm_compute in lit "알 수 없는 오류가 발생했습니다.".
Definition MSG_YTDLP_NO_WAV : str :=
  Eval vm_compute in
    lit "yt-dlp 다운로드에 성공했지만 wav 파일을 찾지 못했습니다.".

Definition ytdlp_cmd (output_path : Path) (url : str) : list str :=
  [lit "yt-dlp"; lit "-x"; lit "--audio-format"; lit "wav"; lit "-o";
   path_str output_path; url].

Definition download_youtube_audio (h : Host) (url : str) : M Path :=
  let* _ := mkdir_parents_exist_ok (YOUTUBE_DOWNLOAD_DIR h) in
  let* hex := uuid4 h in
  let output_filename := lit "youtube_" ++ take 8 hex ++ lit ".wav" in
  let output_path := mkPath (YOUTUBE_DOWNLOAD_DIR h) output_filename in
  let cmd := ytdlp_cmd output_path url in
  let* result :=
    try_except (subprocess_run h cmd None)
      (fun exc =>
         match exc with
         | FileNotFoundError _ => raise (RuntimeError MSG_YTDLP_MISSING)
         | _ => raise exc
         end) in
  if negb (returncode result =? 0)%Z then
    raise (RuntimeError
             (MSG_YTDLP_FAILED ++ diagnostic result MSG_YTDLP_GENERIC))
  else
    let* present := Path_exists (path_str output_path) in
    if negb present then raise (RuntimeError MSG_YTDLP_NO_WAV)
    else ret output_path.

Definition build_command (h : Host) (audio_path : Path) : list str :=
  [WHISPER_CLI h; lit "-m"; MODEL_PATH h; lit "-f"; path_str audio_path;
   lit "-l"; lit "ko"; lit "-otxt"].

Definition CUDA_VISIBLE_DEVICES : str := lit "CUDA_VISIBLE_DEVICES".

Definition MSG_WHISPER_GENERIC : str :=
  Eval vm_compute in lit "whisper-cli failed with an unknown error.".
Definition MSG_TXT_MISSING : str :=
  Eval vm_compute in lit "전사 결과 파일을 찾을 수 없습니다: ".

(** [open(p, "r", encoding="utf-8", errors="replace").read()] *)
Definition read_text (h : Host) (p : str) : M str :=
  fun w =>
    match files w !! p with
    | Some data => (Returned (decode_text h data), w)
    | None => (Raised (FileNotFoundError p), w)
    end.

Definition run_whisper_cli (h : Host) (audio_path : Path) (cuda_device : str)
    : M (str * option str) :=
  let cmd := build_command h audio_path in
  let* env := os_environ_copy in
  let env := <[CUDA_VISIBLE_DEVICES := cuda_device]> env in
  let* result := subprocess_run h cmd (Some env) in
  let stdout := strip (stdout result) in
  let stderr := strip (stderr result) in
  if negb (returncode result =? 0)%Z then
    let error_msg := str_or (str_or stderr stdout) MSG_WHISPER_GENERIC in
    ret ([], Some error_msg)
  else
    (* Path(str(audio_path) + ".txt") prints back as that string *)
    let txt_path := path_str audio_path ++ lit ".txt" in
    let* present := Path_exists txt_path in
    if negb present then
      ret ([], Some (MSG_TXT_MISSING ++ txt_path))
    else
      let* text := read_text h txt_path in
      let transcription := strip text in
      ret (transcription, None).

(** A Streamlit [UploadedFile]: its name and its bytes. *)
Record UploadedFile : Type := mkUpload {
  upload_name : str;
  upload_buffer : list N
}.

Definition save_uploaded_file (h : Host) (uploaded_file : UploadedFile)
    : M Path :=
  let* _ := mkdir_parents_exist_ok (YOUTUBE_DOWNLOAD_DIR h) in
  let output_path :=
    mkPath (YOUTUBE_DOWNLOAD_DIR h) (upload_name uploaded_file) in
  let* _ := write_bytes (path_str output_path) (upload_buffer uploaded_file) in
  ret output_path.

(** ** The controller: the "start" branch of [main] *)

Inductive InputMode : Type :=
| FileUploadMode     (* "파일 업로드" *)
| YouTubeURLMode.    (* "YouTube URL" *)

(** The two keys of [st.session_state] the run writes. *)
Record SessionState : Type := mkSession {
  transcription : str;
  last_error : str
}.

Definition MSG_NO_FILE : str :=
  Eval vm_compute in lit "먼저 파일을 업로드하세요.".
Definition MSG_NO_URL : str :=
  Eval vm_compute in lit "먼저 YouTube 링크를 입력하세요.".

(** The body of the [try]: prepare the acquired file and run the engine
    on it. *)
Definition stages (h : Host) (cuda_device : str) (acquire : M Path)
    : M (str * option str) :=
  let* source_path := acquire in
  let* prepared_audio_path := prepare_audio_file h source_path in
  run_whisper_cli h prepared_audio_path cuda_device.

(** The [finally] block: unlink every path of [temp_paths]. *)
Definition cleanup (temp_paths : list Path) (w : World) : World :=
  foldl (fun w' path => snd (unlink_missing_ok (path_str path) w'))
    w temp_paths.

(** [temp_paths = set()] followed by [try] / [except Exception] /
    [finally].  Nothing is ever added to [temp_paths]. *)
Definition run_stages (h : Host) (cuda_device : str) (acquire : M Path)
    (state : SessionState) (w : World) : SessionState * World :=
  let temp_paths : list Path := [] in
  let '(state', w') :=
    match stages h cuda_device acquire w with
    | (Returned (text, error), w1) =>
      if opt_truthy error
      then (mkSession (transcription state)
              (match error with Some e => e | None => [] end), w1)
      else (mkSession text (last_error state), w1)
    | (Raised exc, w1) =>
      (mkSession (transcription state) (exn_str exc), w1)
    end in
  (state', cleanup temp_paths w').

(** What pressing the start button does to the session state and the
    world, from the widgets' values and [args.cuda_device]. *)
Definition main (h : Host) (cuda_device : str) (input_mode : InputMode)
    (uploaded : option UploadedFile) (youtube_url : str) (w : World)
    : SessionState * World :=
  let state := mkSession [] [] in
  match input_mode, uploaded with
  | FileUploadMode, None =>
    (mkSession (transcription state) MSG_NO_FILE, w)
  | FileUploadMode, Some uploaded_file =>
    run_stages h cuda_device (save_uploaded_file h uploaded_file) state w
  | YouTubeURLMode, _ =>
    if negb (truthy (strip youtube_url))
    then (mkSession (transcription state) MSG_NO_URL, w)
    else run_stages h cuda_device
           (download_youtube_audio h (strip youtube_url)) state w
  end.

(** ** Configuration: [load_config] *)

(** What [json.load] can return.  A number is kept as the token it was
    written with; an object keeps its members in document order. *)
Local Unset Elimination Schemes.
Inductive json : Type :=
| JNull
| JBool (b : bool)
| JNumber (token : str)
| JString (s : str)
| JArray (items : list json)
| JObject (members : list (str * json)).
Local Set Elimination Schemes.

(** What [load_config] raises.  [ConfigValueError] stands for
    [ValueError] and its subclasses ([json.JSONDecodeError],
    [UnicodeDecodeError]); the argument is what [str(exc)] gives.
    [ConfigTypeError] is the [TypeError] of [key in config] on a value
    that is not a container. *)
Inductive config_error : Type :=
| ConfigFileNotFound (msg : str)
| ConfigValueError (msg : str)
| ConfigTypeError.

(** [key in config] for a string [key]: a key of a dict, an element of a
    list, a substring of a string; a [TypeError] ([None]) otherwise. *)
Definition json_contains (key : str) (config : json) : option bool :=
  match config with
  | JObject members => Some (bool_decide (key ∈ map fst members))
  | JArray items =>
    Some (existsb (fun v => match v with
                            | JString s => bool_decide (s = key)
                            | _ => false
                            end) items)
  | JString s => Some (contains key s)
  | JNull | JBool _ | JNumber _ => None
  end.

(** [SCRIPT_DIR / "config.json"] and [SCRIPT_DIR / "config.example.json"] *)
Definition CONFIG_PATH (script_dir : str) : Path :=
  mkPath script_dir (lit "config.json").
Definition CONFIG_EXAMPLE_PATH (script_dir : str) : Path :=
  mkPath script_dir (lit "config.example.json").

Definition MSG_CONFIG_MISSING : str :=
  Eval vm_compute in lit "설정 파일을 찾을 수 없습니다: ".
Definition MSG_CONFIG_COPY_1 : str := Eval vm_compute in lit "'을 '".
Definition MSG_CONFIG_COPY_2 : str :=
  Eval vm_compute in lit "'으로 복사한 후 경로를 수정하세요.".
Definition MSG_CONFIG_KEY_1 : str := Eval vm_compute in lit "설정 파일에 '".
Definition MSG_CONFIG_KEY_2 : str :=
  Eval vm_compute in lit "' 항목이 필요합니다.".

Definition required_keys : list str := [lit "whisper_cli"; lit "model_path"].

(** The loop over [required_keys]: the first key that is not in
    [config] stops it. *)
Fixpoint check_required (keys : list str) (config : json)
    : option config_error :=
  match keys with
  | [] => None
  | key :: rest =>
    match json_contains key config with
    | None => Some ConfigTypeError
    | Some false =>
      Some (ConfigValueError (MSG_CONFIG_KEY_1 ++ key ++ MSG_CONFIG_KEY_2))
    | Some true => check_required rest config
    end
  end.

(** [load_config], with the directory of the script and the JSON parser
    (text decoding included; a left value is the text of the
    [ValueError] it raises) as parameters.  It only reads the world. *)
Definition load_config (script_dir : str) (json_load : list N -> str + json)
    (w : World) : config_error + json :=
  let config_path := CONFIG_PATH script_dir in
  let example_path := CONFIG_EXAMPLE_PATH script_dir in
  match files w !! path_str config_path with
  | None =>
    if bool_decide (is_Some (files w !! path_str example_path)) then
      inl (ConfigFileNotFound
             (MSG_CONFIG_MISSING ++ path_str config_path ++ [10]
              ++ [39] ++ name example_path ++ MSG_CONFIG_COPY_1
              ++ name config_path ++ MSG_CONFIG_COPY_2))
    else
      inl (ConfigFileNotFound (MSG_CONFIG_MISSING ++ path_str config_path))
  | Some data =>
    match json_load data with
    | inl msg => inl (ConfigValueError msg)
    | inr config =>
      match check_required required_keys config with
      | Some e => inl e
      | None => inr config
      end
    end
  end.

(** ** Concrete hosts and worlds *)

Module Scenario.

Definition dl : str := lit "C:\stt\downloaded".

(** A world with no files, one environment variable and no history. *)
Definition w0 : World :=
  mkWorld ∅ {[ lit "PATH" := lit "C:\bin" ]} [] 0.

Definition ok (out err : str) : CompletedProcess := mkCompleted 0 out err.

(** A host whose three programs all work: ffmpeg and yt-dlp write their
    output file, whisper-cli writes [transcript] next to the audio. *)
Definition spawn_working (transcript : list N) (w : World) (cmd : list str)
    (env : gmap (list N) (list N)) : spawn_outcome :=
  match cmd with
  | [_; _; _; _; _; out] =>                      (* ffmpeg *)
    Exited (ok [] []) (<[out := lit "RIFF"]> (files w))
  | [_; _; _; _; _; out; _] =>                   (* yt-dlp *)
    Exited (ok [] []) (<[out := lit "RIFF"]> (files w))
  | [_; _; _; _; audio; _; _; _] =>              (* whisper-cli *)
    Exited (ok [] []) (<[audio ++ lit ".txt" := transcript]> (files w))
  | _ => SpawnError (NotFound (lit "[WinError 2]"))
  end.

Definition host_working (transcript : list N) : Host :=
  mkHost ascii_lower (fun b => b) (spawn_working transcript)
    (fun n => lit "0123456789abcdef0123456789abcdef")
    (lit "C:\stt\whisper-cli.exe") (lit "C:\stt\model.bin") dl.

(** A host on which every program exits with [code], printing [out] and
    [err], and touches no file. *)
Definition host_exit (code : Z) (out err : str) : Host :=
  mkHost ascii_lower (fun b => b)
    (fun w _ _ => Exited (mkCompleted code out err) (files w))
    (fun n => lit "0123456789abcdef0123456789abcdef")
    (lit "C:\stt\whisper-cli.exe") (lit "C:\stt\model.bin") dl.

(** A host on which no program can be started; [missing] says whether
    the executable is missing or the start fails otherwise. *)
Definition host_no_spawn (missing : bool) : Host :=
  mkHost ascii_lower (fun b => b)
    (fun _ _ _ =>
       SpawnError (if missing then NotFound (lit "[WinError 2]")
                   else OtherOSError (lit "[WinError 5]")))
    (fun n => lit "0123456789abcdef0123456789abcdef")
    (lit "C:\stt\whisper-cli.exe") (lit "C:\stt\model.bin") dl.

(** A host whose ffmpeg leaves a truncated output file behind and exits
    with status 1 and a message on stderr. *)
Definition host_ffmpeg_partial : Host :=
  mkHost ascii_lower (fun b => b)
    (fun w cmd _ =>
       match cmd with
       | [_; _; _; _; _; out] =>
         Exited (mkCompleted 1 [] (lit "  Invalid data found  "))
           (<[out := lit "RI"]> (files w))
       | _ => SpawnError (NotFound (lit "[WinError 2]"))
       end)
    (fun n => lit "0123456789abcdef0123456789abcdef")
    (lit "C:\stt\whisper-cli.exe") (lit "C:\stt\model.bin") dl.

Definition clip_mp4 : UploadedFile := mkUpload (lit "clip.mp4") [0; 0; 0; 24].

End Scenario.


(** * Properties *)

(** ** Strings and paths *)

Example lit_korean : lit "변환 a" = [48320; 54872; 32; 97].
Proof. reflexivity. Qed.

Example strip_example : strip (lit "  hi there
 ") = lit "hi there".
Proof. reflexivity. Qed.

Example suffix_examples :
  Path_suffix (mkPath Scenario.dl (lit "clip.mp4")) = lit ".mp4"
  /\ Path_suffix (mkPath Scenario.dl (lit "a.b.WAV")) = lit ".WAV"
  /\ Path_suffix (mkPath Scenario.dl (lit ".wav")) = []
  /\ Path_suffix (mkPath Scenario.dl (lit "a.")) = []
  /\ with_suffix (mkPath Scenario.dl (lit "clip.mp4")) (lit ".wav")
     = mkPath Scenario.dl (lit "clip.wav").
Proof. repeat split; reflexivity. Qed.

Lemma truthy_nonempty (s : str) : truthy s = true <-> s <> [].
Proof. destruct s; simpl; split; congruence. Qed.

Lemma truthy_app_l (a b : str) : truthy a = true -> truthy (a ++ b) = true.
Proof. destruct a; simpl; congruence. Qed.

Lemma str_or_truthy_r (a b : str) : truthy b = true -> truthy (str_or a b) = true.
Proof. unfold str_or. destruct (truthy a) eqn:E; auto. Qed.

Lemma ascii_lower_cp_small (c : N) : ascii_lower_cp c < 128 -> c < 128.
Proof.
  unfold ascii_lower_cp.
  destruct ((65 <=? c) && (c <=? 90)) eqn:E; [| tauto].
  apply andb_true_iff in E as [_ H2]. apply N.leb_le in H2. lia.
Qed.

Lemma ascii_lower_is_ascii (s : str) :
  is_ascii (ascii_lower s) = true -> is_ascii s = true.
Proof.
  unfold is_ascii, ascii_lower. induction s as [| c r IH]; simpl; [done |].
  rewrite !andb_true_iff, !N.ltb_lt. intros [Hc Hr].
  split; [by apply ascii_lower_cp_small | by apply IH].
Qed.

Lemma allowed_is_ascii (e : str) :
  e ∈ ALLOWED_SUFFIXES -> is_ascii e = true.
Proof.
  unfold ALLOWED_SUFFIXES. rewrite !elem_of_cons, elem_of_nil.
  intros [-> | [-> | [-> | [-> | []]]]]; reflexivity.
Qed.

(** A suffix whose ASCII lowering is allowed is itself pure ASCII, so
    [str_lower] takes the byte-wise branch on it. *)
Lemma str_lower_case_variant (h : Host) (s : str) :
  ascii_lower s ∈ ALLOWED_SUFFIXES -> str_lower h s = ascii_lower s.
Proof.
  intros H. unfold str_lower.
  by rewrite (ascii_lower_is_ascii s (allowed_is_ascii _ H)).
Qed.

Lemma path_str_inj_name (d n1 n2 : str) :
  path_str (mkPath d n1) = path_str (mkPath d n2) -> n1 = n2.
Proof. unfold path_str; simpl. intros H. by simplify_list_eq. Qed.

(** ** [prepare_audio_file] *)

Section Prepare.

Variable h : Host.

(** The three ways the function can go once the suffix is allowed and is
    not ".wav", by what starting ffmpeg did. *)
Lemma prepare_transcode_eq (input_path : Path) (w : World) :
  let suffix := str_lower h (Path_suffix input_path) in
  let output_path := with_suffix input_path (lit ".wav") in
  let cmd := ffmpeg_cmd input_path output_path in
  let log := spawned w ++ [(cmd, environ w)] in
  suffix ∈ ALLOWED_SUFFIXES -> suffix <> lit ".wav" ->
  prepare_audio_file h input_path w =
  match os_spawn h w cmd (environ w) with
  | SpawnError (NotFound _) =>
    (Raised (RuntimeError MSG_FFMPEG_MISSING),
     mkWorld (files w) (environ w) log (uuids_drawn w))
  | SpawnError (OtherOSError m) =>
    (Raised (OSError m), mkWorld (files w) (environ w) log (uuids_drawn w))
  | Exited cp fs' =>
    if negb (returncode cp =? 0)%Z
       || negb (bool_decide (is_Some (fs' !! path_str output_path)))
    then (Raised (RuntimeError
                    (MSG_FFMPEG_FAILED ++ diagnostic cp MSG_FFMPEG_GENERIC)),
          mkWorld (delete (path_str output_path) fs') (environ w) log
            (uuids_drawn w))
    else (Returned output_path, mkWorld fs' (environ w) log (uuids_drawn w))
  end.
Proof.
  intros suffix output_path cmd log Hin Hne.
  unfold prepare_audio_file. fold suffix.
  rewrite (bool_decide_eq_true_2 _ Hin), (bool_decide_eq_false_2 _ Hne).
  cbn [negb].
  fold output_path. fold cmd.
  unfold bind, try_except, subprocess_run, Path_exists, unlink_missing_ok,
    raise, ret.
  cbv beta iota zeta.
  destruct (os_spawn h w cmd (environ w)) as [cp fs' | [m | m]];
    cbn [raise_os]; try reflexivity.
  destruct (returncode cp =? 0)%Z; cbn [negb orb files environ spawned uuids_drawn];
    [| reflexivity].
  by destruct (bool_decide (is_Some (fs' !! path_str output_path))).
Qed.

Lemma prepare_unsupported_eq (input_path : Path) (w : World) :
  let suffix := str_lower h (Path_suffix input_path) in
  suffix ∉ ALLOWED_SUFFIXES ->
  prepare_audio_file h input_path w
  = (Raised (ValueError (MSG_UNSUPPORTED ++ suffix)), w).
Proof.
  intros suffix Hout. unfold prepare_audio_file. fold suffix.
  by rewrite (bool_decide_eq_false_2 _ Hout).
Qed.

Lemma prepare_wav_eq (input_path : Path) (w : World) :
  str_lower h (Path_suffix input_path) = lit ".wav" ->
  prepare_audio_file h input_path w = (Returned input_path, w).
Proof.
  intros Hs. unfold prepare_audio_file. rewrite Hs. reflexivity.
Qed.

Lemma prepare_allowed_no_ValueError (input_path : Path) (w : World) :
  str_lower h (Path_suffix input_path) ∈ ALLOWED_SUFFIXES ->
  forall msg, (prepare_audio_file h input_path w).1 <> Raised (ValueError msg).
Proof.
  intros Hin msg.
  destruct (decide (str_lower h (Path_suffix input_path) = lit ".wav")) as [Hw | Hw].
  - by rewrite prepare_wav_eq.
  - rewrite prepare_transcode_eq by done.
    destruct (os_spawn h w _ _) as [cp fs' | [m | m]]; simpl; try done.
    by destruct (_ || _).
Qed.

End Prepare.

(** C3. An input whose extension is ".wav" comes back as the identical
    path, and the world is left exactly as it was: no file is created and
    no external process is run (the log of [subprocess.run] calls does
    not grow). *)
Theorem prepare_wav_fast_path (h : Host) (input_path : Path) (w : World) :
  Path_suffix input_path = lit ".wav" ->
  prepare_audio_file h input_path w = (Returned input_path, w).
Proof.
  intros Hs. apply prepare_wav_eq. by rewrite Hs.
Qed.

Lemma prepare_wav_fast_path_witness :
  prepare_audio_file (Scenario.host_exit 1 [] [])
    (mkPath Scenario.dl (lit "sample.wav")) Scenario.w0
  = (Returned (mkPath Scenario.dl (lit "sample.wav")), Scenario.w0).
Proof.
  apply (prepare_wav_fast_path (Scenario.host_exit 1 [] [])
           (mkPath Scenario.dl (lit "sample.wav")) Scenario.w0).
  reflexivity.
Defined.

(** C4. When ffmpeg was started and failed (non-zero exit status, or no
    output file afterwards), [prepare_audio_file] raises a [RuntimeError]
    whose text is the fixed prefix followed by the stripped stderr, else
    the stripped stdout, else a generic sentence; and in the world it
    leaves there is no file at the sibling ".wav" path, every other file
    being as ffmpeg left it. *)
Theorem prepare_transcode_failure (h : Host) (input_path : Path) (w : World)
    (cp : CompletedProcess) (fs' : gmap (list N) (list N)) :
  let suffix := str_lower h (Path_suffix input_path) in
  let output_path := with_suffix input_path (lit ".wav") in
  suffix ∈ ALLOWED_SUFFIXES -> suffix <> lit ".wav" ->
  os_spawn h w (ffmpeg_cmd input_path output_path) (environ w) = Exited cp fs' ->
  (returncode cp <> 0%Z \/ fs' !! path_str output_path = None) ->
  exists w',
    prepare_audio_file h input_path w
    = (Raised (RuntimeError
                 (MSG_FFMPEG_FAILED ++ diagnostic cp MSG_FFMPEG_GENERIC)), w')
    /\ files w' !! path_str output_path = None
    /\ (forall p, p <> path_str output_path -> files w' !! p = fs' !! p)
    /\ (strip (stderr cp) <> [] ->
        diagnostic cp MSG_FFMPEG_GENERIC = strip (stderr cp))
    /\ (strip (stderr cp) = [] -> strip (stdout cp) <> [] ->
        diagnostic cp MSG_FFMPEG_GENERIC = strip (stdout cp)).
Proof.
  intros suffix output_path Hin Hne Hrun Hfail.
  eexists. split.
  - rewrite prepare_transcode_eq by done. fold output_path. rewrite Hrun.
    assert (negb (returncode cp =? 0)%Z
            || negb (bool_decide (is_Some (fs' !! path_str output_path)))
            = true) as ->; [| reflexivity].
    destruct Hfail as [Hrc | Hnone].
    + apply Z.eqb_neq in Hrc. by rewrite Hrc.
    + rewrite orb_true_iff. right.
      rewrite negb_true_iff, bool_decide_eq_false, Hnone.
      by intros [? ?].
  - cbn [files]. split; [apply lookup_delete_eq |].
    split; [intros p Hp; apply lookup_delete_ne; congruence |].
    unfold diagnostic, str_or. split.
    + intros H1. apply truthy_nonempty in H1.
      rewrite H1. cbv iota. by rewrite H1.
    + intros H1 H2. rewrite H1. cbn [truthy].
      apply truthy_nonempty in H2. by rewrite H2.
Qed.

Lemma prepare_transcode_failure_witness :
  exists w',
    prepare_audio_file Scenario.host_ffmpeg_partial
      (mkPath Scenario.dl (lit "clip.mp4")) Scenario.w0
    = (Raised (RuntimeError (MSG_FFMPEG_FAILED ++ lit "Invalid data found")),
       w')
    /\ files w' !! lit "C:\stt\downloaded\clip.wav" = None.
Proof.
  destruct (prepare_transcode_failure Scenario.host_ffmpeg_partial
              (mkPath Scenario.dl (lit "clip.mp4")) Scenario.w0
              (mkCompleted 1 [] (lit "  Invalid data found  "))
              (<[lit "C:\stt\downloaded\clip.wav" := lit "RI"]> ∅))
    as (w' & Heq & Hgone & _).
  - vm_compute. do 2 right. left.
  - vm_compute. discriminate.
  - reflexivity.
  - left. vm_compute. discriminate.
  - exists w'. split; [exact Heq | exact Hgone].
Defined.

(** C5. With the extension taken as the code takes it (the lowered
    suffix): outside the four allowed suffixes the call raises the
    unsupported-format [ValueError] and leaves the world untouched, so
    no process was started; inside them it never raises a [ValueError]. *)
Theorem prepare_unsupported_format (h : Host) (input_path : Path) (w : World) :
  let suffix := str_lower h (Path_suffix input_path) in
  (suffix ∉ ALLOWED_SUFFIXES ->
   prepare_audio_file h input_path w
   = (Raised (ValueError (MSG_UNSUPPORTED ++ suffix)), w))
  /\ (suffix ∈ ALLOWED_SUFFIXES ->
      forall msg,
        (prepare_audio_file h input_path w).1 <> Raised (ValueError msg)).
Proof.
  intros suffix. split.
  - apply prepare_unsupported_eq.
  - apply prepare_allowed_no_ValueError.
Qed.

Lemma prepare_unsupported_format_witness :
  prepare_audio_file (Scenario.host_working [])
    (mkPath Scenario.dl (lit "notes.txt")) Scenario.w0
  = (Raised (ValueError (MSG_UNSUPPORTED ++ lit ".txt")), Scenario.w0)
  /\ forall msg,
       (prepare_audio_file (Scenario.host_no_spawn true)
          (mkPath Scenario.dl (lit "clip.m4a")) Scenario.w0).1
       <> Raised (ValueError msg).
Proof.
  split.
  - apply (proj1 (prepare_unsupported_format (Scenario.host_working [])
                    (mkPath Scenario.dl (lit "notes.txt")) Scenario.w0)).
    vm_compute. intros H. repeat (inversion H as [| ? ? ? H']; clear H; rename H' into H).
  - apply (proj2 (prepare_unsupported_format (Scenario.host_no_spawn true)
                    (mkPath Scenario.dl (lit "clip.m4a")) Scenario.w0)).
    vm_compute. do 3 right. left.
Defined.

(** C10. Matching ignores ASCII letter case: if the suffix, lowered,
    is one of the allowed ones, the file is not rejected; when it is a
    case variant of ".wav" the path is returned unchanged with the world
    untouched, and otherwise ffmpeg is the next thing run. *)
Theorem prepare_suffix_case_insensitive (h : Host) (input_path : Path)
    (w : World) :
  ascii_lower (Path_suffix input_path) ∈ ALLOWED_SUFFIXES ->
  (forall msg,
     (prepare_audio_file h input_path w).1 <> Raised (ValueError msg))
  /\ (ascii_lower (Path_suffix input_path) = lit ".wav" ->
      prepare_audio_file h input_path w = (Returned input_path, w))
  /\ (ascii_lower (Path_suffix input_path) <> lit ".wav" ->
      spawned (prepare_audio_file h input_path w).2
      = spawned w
        ++ [(ffmpeg_cmd input_path (with_suffix input_path (lit ".wav")),
             environ w)]).
Proof.
  intros Hin. pose proof (str_lower_case_variant h _ Hin) as Hlow.
  split; [| split].
  - apply prepare_allowed_no_ValueError. by rewrite Hlow.
  - intros Hw. apply prepare_wav_eq. by rewrite Hlow.
  - intros Hw. rewrite prepare_transcode_eq by (by rewrite Hlow).
    destruct (os_spawn h w _ _) as [cp fs' | [m | m]]; try reflexivity.
    by destruct (_ || _).
Qed.

Lemma prepare_suffix_case_insensitive_witness :
  prepare_audio_file (Scenario.host_exit 1 [] [])
    (mkPath Scenario.dl (lit "TAKE1.WAV")) Scenario.w0
  = (Returned (mkPath Scenario.dl (lit "TAKE1.WAV")), Scenario.w0)
  /\ forall msg,
       (prepare_audio_file (Scenario.host_working [])
          (mkPath Scenario.dl (lit "song.Mp3")) Scenario.w0).1
       <> Raised (ValueError msg).
Proof.
  split.
  - apply (prepare_suffix_case_insensitive (Scenario.host_exit 1 [] [])
             (mkPath Scenario.dl (lit "TAKE1.WAV")) Scenario.w0).
    + vm_compute. left.
    + reflexivity.
  - apply (prepare_suffix_case_insensitive (Scenario.host_working [])
             (mkPath Scenario.dl (lit "song.Mp3")) Scenario.w0).
    vm_compute. right. left.
Defined.

(** ** [run_whisper_cli] *)

Section Whisper.

Variable h : Host.

(** The function by what starting whisper-cli did. *)
Lemma run_whisper_cli_eq (audio_path : Path) (cuda_device : str) (w : World) :
  let env := <[CUDA_VISIBLE_DEVICES := cuda_device]> (environ w) in
  let cmd := build_command h audio_path in
  let log := spawned w ++ [(cmd, env)] in
  let txt_path := path_str audio_path ++ lit ".txt" in
  run_whisper_cli h audio_path cuda_device w =
  match os_spawn h w cmd env with
  | SpawnError e =>
    (Raised (raise_os e), mkWorld (files w) (environ w) log (uuids_drawn w))
  | Exited cp fs' =>
    (if negb (returncode cp =? 0)%Z then
       Returned ([], Some (str_or (str_or (strip (stderr cp)) (strip (stdout cp)))
                             MSG_WHISPER_GENERIC))
     else match fs' !! txt_path with
          | None => Returned ([], Some (MSG_TXT_MISSING ++ txt_path))
          | Some data => Returned (strip (decode_text h data), None)
          end,
     mkWorld fs' (environ w) log (uuids_drawn w))
  end.
Proof.
  intros env cmd log txt_path.
  unfold run_whisper_cli, bind, os_environ_copy, subprocess_run, Path_exists,
    read_text, ret.
  cbv beta iota zeta. fold cmd. fold env. fold txt_path.
  destruct (os_spawn h w cmd env) as [cp fs' | e]; [| reflexivity].
  destruct (returncode cp =? 0)%Z; cbn [negb files]; [| reflexivity].
  destruct (fs' !! txt_path) as [data |] eqn:E.
  - rewrite bool_decide_eq_true_2 by eauto.
    cbn [negb files]. by rewrite E.
  - rewrite bool_decide_eq_false_2 by (by intros [? ?]). reflexivity.
Qed.

(** The error that comes back with the text is [None] or a non-empty
    string, so its truth value tells success from failure. *)
Lemma run_whisper_cli_error_nonempty (audio_path : Path) (cuda_device : str)
    (w : World) (text : str) (e : str) (w' : World) :
  run_whisper_cli h audio_path cuda_device w = (Returned (text, Some e), w') ->
  text = [] /\ truthy e = true.
Proof.
  rewrite run_whisper_cli_eq.
  destruct (os_spawn h w _ _) as [cp fs' | err]; [| discriminate].
  destruct (returncode cp =? 0)%Z; cbn [negb].
  - destruct (fs' !! _); intros [= <- <- <-]; by split.
  - intros [= <- <- <-]. split; [done |]. by apply str_or_truthy_r.
Qed.

End Whisper.

(** C6. If whisper-cli was started, exited with status 0 and left no
    text file at the audio path plus ".txt", [run_whisper_cli] returns
    (it does not raise) the empty text and the "result file not found"
    message naming that path. *)
Theorem whisper_result_file_missing (h : Host) (audio_path : Path)
    (cuda_device : str) (w : World) (cp : CompletedProcess)
    (fs' : gmap (list N) (list N)) :
  let txt_path := path_str audio_path ++ lit ".txt" in
  os_spawn h w (build_command h audio_path)
    (<[CUDA_VISIBLE_DEVICES := cuda_device]> (environ w)) = Exited cp fs' ->
  returncode cp = 0%Z ->
  fs' !! txt_path = None ->
  (run_whisper_cli h audio_path cuda_device w).1
  = Returned ([], Some (MSG_TXT_MISSING ++ txt_path)).
Proof.
  intros txt_path Hrun Hrc Habsent.
  rewrite run_whisper_cli_eq, Hrun, Hrc. cbn [fst Z.eqb negb].
  fold txt_path. by rewrite Habsent.
Qed.

Lemma whisper_result_file_missing_witness :
  (run_whisper_cli (Scenario.host_exit 0 (lit "done") [])
     (mkPath Scenario.dl (lit "sample.wav")) (lit "0") Scenario.w0).1
  = Returned ([], Some (MSG_TXT_MISSING ++ lit "C:\stt\downloaded\sample.wav.txt")).
Proof.
  apply (whisper_result_file_missing (Scenario.host_exit 0 (lit "done") [])
           (mkPath Scenario.dl (lit "sample.wav")) (lit "0") Scenario.w0
           (mkCompleted 0 (lit "done") []) ∅);
    reflexivity.
Defined.

(** C7. If whisper-cli was started and exited with a non-zero status,
    [run_whisper_cli] returns (it does not raise) the empty text and an
    error that is the stripped stderr when that is non-empty, else the
    stripped stdout when that is non-empty, else the fixed sentence. *)
Theorem whisper_nonzero_exit (h : Host) (audio_path : Path)
    (cuda_device : str) (w : World) (cp : CompletedProcess)
    (fs' : gmap (list N) (list N)) :
  os_spawn h w (build_command h audio_path)
    (<[CUDA_VISIBLE_DEVICES := cuda_device]> (environ w)) = Exited cp fs' ->
  returncode cp <> 0%Z ->
  exists error_msg,
    (run_whisper_cli h audio_path cuda_device w).1
    = Returned ([], Some error_msg)
    /\ (strip (stderr cp) <> [] -> error_msg = strip (stderr cp))
    /\ (strip (stderr cp) = [] -> strip (stdout cp) <> [] ->
        error_msg = strip (stdout cp))
    /\ (strip (stderr cp) = [] -> strip (stdout cp) = [] ->
        error_msg = MSG_WHISPER_GENERIC).
Proof.
  intros Hrun Hrc. eexists. split.
  - rewrite run_whisper_cli_eq, Hrun. apply Z.eqb_neq in Hrc.
    rewrite Hrc. reflexivity.
  - unfold str_or. split; [| split].
    + intros H1. apply truthy_nonempty in H1.
      rewrite H1. cbv iota. by rewrite H1.
    + intros H1 H2. rewrite H1. cbn [truthy].
      apply truthy_nonempty in H2. by rewrite H2.
    + intros H1 H2. by rewrite H1, H2.
Qed.

Lemma whisper_nonzero_exit_witness :
  (run_whisper_cli (Scenario.host_exit 3 (lit " model not loaded ") (lit "  "))
     (mkPath Scenario.dl (lit "sample.wav")) (lit "0") Scenario.w0).1
  = Returned ([], Some (lit "model not loaded")).
Proof.
  destruct (whisper_nonzero_exit
              (Scenario.host_exit 3 (lit " model not loaded ") (lit "  "))
              (mkPath Scenario.dl (lit "sample.wav")) (lit "0") Scenario.w0
              (mkCompleted 3 (lit " model not loaded ") (lit "  ")) ∅)
    as (msg & Heq & _ & Hout & _).
  - reflexivity.
  - discriminate.
  - rewrite Heq. rewrite Hout; [reflexivity | reflexivity | discriminate].
Defined.

(** C9. Whatever the outcome of the call, [run_whisper_cli] makes one
    [subprocess.run] call, for the whisper-cli command, and the
    environment it hands to the child has CUDA_VISIBLE_DEVICES bound to
    the device selector and agrees with [os.environ] on every other
    variable; [os.environ] itself is the same after the call. *)
Theorem whisper_child_environment (h : Host) (audio_path : Path)
    (cuda_device : str) (w : World) :
  exists child_env : gmap (list N) (list N),
    spawned (run_whisper_cli h audio_path cuda_device w).2
    = spawned w ++ [(build_command h audio_path, child_env)]
    /\ child_env !! CUDA_VISIBLE_DEVICES = Some cuda_device
    /\ (forall k, k <> CUDA_VISIBLE_DEVICES -> child_env !! k = environ w !! k)
    /\ environ (run_whisper_cli h audio_path cuda_device w).2 = environ w.
Proof.
  exists (<[CUDA_VISIBLE_DEVICES := cuda_device]> (environ w)).
  rewrite run_whisper_cli_eq.
  split; [| split; [| split]].
  - by destruct (os_spawn h w _ _).
  - apply lookup_insert_eq.
  - intros k Hk. apply lookup_insert_ne. congruence.
  - by destruct (os_spawn h w _ _).
Qed.

(** ** [download_youtube_audio] *)

Section Download.

Variable h : Host.

(** The function by what starting yt-dlp did.  The UUID is drawn before
    the program is started. *)
Lemma download_youtube_audio_eq (url : str) (w : World) :
  let output_path :=
    mkPath (YOUTUBE_DOWNLOAD_DIR h)
      (lit "youtube_" ++ take 8 (uuid4_hex h (uuids_drawn w)) ++ lit ".wav") in
  let cmd := ytdlp_cmd output_path url in
  let w1 := mkWorld (files w) (environ w) (spawned w) (S (uuids_drawn w)) in
  let log := spawned w ++ [(cmd, environ w)] in
  download_youtube_audio h url w =
  match os_spawn h w1 cmd (environ w) with
  | SpawnError (NotFound _) =>
    (Raised (RuntimeError MSG_YTDLP_MISSING),
     mkWorld (files w) (environ w) log (S (uuids_drawn w)))
  | SpawnError (OtherOSError m) =>
    (Raised (OSError m),
     mkWorld (files w) (environ w) log (S (uuids_drawn w)))
  | Exited cp fs' =>
    (if negb (returncode cp =? 0)%Z then
       Raised (RuntimeError
                 (MSG_YTDLP_FAILED ++ diagnostic cp MSG_YTDLP_GENERIC))
     else if bool_decide (is_Some (fs' !! path_str output_path)) then
       Returned output_path
     else Raised (RuntimeError MSG_YTDLP_NO_WAV),
     mkWorld fs' (environ w) log (S (uuids_drawn w)))
  end.
Proof.
  intros output_path cmd w1 log.
  unfold download_youtube_audio, bind, try_except, mkdir_parents_exist_ok,
    uuid4, subprocess_run, Path_exists, raise, ret.
  cbv beta iota zeta. cbn [files environ spawned uuids_drawn].
  fold output_path. fold cmd. fold w1.
  destruct (os_spawn h w1 cmd (environ w)) as [cp fs' | [m | m]];
    cbn [raise_os]; try reflexivity.
  destruct (returncode cp =? 0)%Z; cbn [negb files]; [| reflexivity].
  by destruct (bool_decide (is_Some (fs' !! path_str output_path))).
Qed.

End Download.

(** C8, amended.  [download_youtube_audio] makes one [subprocess.run]
    call, with the command yt-dlp -x --audio-format wav -o <output path>
    <url> and the inherited environment.  It raises the "yt-dlp not
    found" [RuntimeError] exactly when the executable cannot be located.
    If yt-dlp ran and exited non-zero it raises the "download failed"
    [RuntimeError] carrying the stripped stderr, else the stripped stdout,
    else a generic sentence.  If yt-dlp exited zero and the output file is
    absent it raises a [RuntimeError] with a fixed sentence that carries
    none of yt-dlp's output.  If yt-dlp exited zero and the file exists
    it returns the output path. *)
Theorem download_outcomes (h : Host) (url : str) (w : World) :
  let output_path :=
    mkPath (YOUTUBE_DOWNLOAD_DIR h)
      (lit "youtube_" ++ take 8 (uuid4_hex h (uuids_drawn w)) ++ lit ".wav") in
  let cmd :=
    [lit "yt-dlp"; lit "-x"; lit "--audio-format"; lit "wav"; lit "-o";
     path_str output_path; url] in
  let w1 := mkWorld (files w) (environ w) (spawned w) (S (uuids_drawn w)) in
  let r := download_youtube_audio h url w in
  spawned r.2 = spawned w ++ [(cmd, environ w)]
  /\ (r.1 = Raised (RuntimeError MSG_YTDLP_MISSING)
      <-> exists m, os_spawn h w1 cmd (environ w) = SpawnError (NotFound m))
  /\ match os_spawn h w1 cmd (environ w) with
     | SpawnError (NotFound _) => r.1 = Raised (RuntimeError MSG_YTDLP_MISSING)
     | SpawnError (OtherOSError m) => r.1 = Raised (OSError m)
     | Exited cp fs' =>
       files r.2 = fs'
       /\ if negb (returncode cp =? 0)%Z then
            r.1 = Raised (RuntimeError
                            (MSG_YTDLP_FAILED
                             ++ diagnostic cp MSG_YTDLP_GENERIC))
          else if bool_decide (is_Some (fs' !! path_str output_path)) then
            r.1 = Returned output_path
          else r.1 = Raised (RuntimeError MSG_YTDLP_NO_WAV)
     end.
Proof.
  intros output_path cmd w1 r. subst r.
  rewrite download_youtube_audio_eq.
  fold output_path. change (ytdlp_cmd output_path url) with cmd. fold w1.
  destruct (os_spawn h w1 cmd (environ w)) as [cp fs' | [m | m]];
    cbn [fst snd spawned files].
  - split; [done |]. split.
    + split.
      * destruct (negb _); [| destruct (bool_decide _)]; intros [= E];
          discriminate E.
      * by intros [? ?].
    + split; [done |].
      destruct (negb _); [done |]. by destruct (bool_decide _).
  - split; [done |]. split; [| done]. split; [by exists m | done].
  - split; [done |]. split; [| done]. split; [done | by intros [? ?]].
Qed.

(** C8 as stated fails when yt-dlp exits with status 0 without writing
    the output file: the call fails, but the error it raises is the fixed
    sentence, which carries neither the stderr nor the stdout yt-dlp
    printed. *)
Lemma download_absent_output_drops_diagnostic :
  let h := Scenario.host_exit 0 (lit "[download] 100%")
             (lit "ERROR: audio conversion failed") in
  let r := download_youtube_audio h (lit "https://example.com/x") Scenario.w0 in
  files r.2 !! lit "C:\stt\downloaded\youtube_01234567.wav" = None
  /\ spawned r.2
     = [([lit "yt-dlp"; lit "-x"; lit "--audio-format"; lit "wav"; lit "-o";
          lit "C:\stt\downloaded\youtube_01234567.wav";
          lit "https://example.com/x"], environ Scenario.w0)]
  /\ r.1 = Raised (RuntimeError MSG_YTDLP_NO_WAV)
  /\ contains (lit "ERROR: audio conversion failed") MSG_YTDLP_NO_WAV = false
  /\ contains (lit "[download] 100%") MSG_YTDLP_NO_WAV = false.
Proof. repeat split; vm_compute; reflexivity. Qed.

(** ** The controller *)

Section Controller.

Variable h : Host.

(** The [finally] block iterates over an empty set: the world after the
    run is the world the stages left. *)
Lemma run_stages_world (cuda_device : str) (acquire : M Path)
    (state : SessionState) (w : World) :
  (run_stages h cuda_device acquire state w).2
  = (stages h cuda_device acquire w).2.
Proof.
  unfold run_stages.
  destruct (stages h cuda_device acquire w) as [[[text error] | exc] w1];
    [destruct (opt_truthy error) |]; reflexivity.
Qed.

Lemma stages_error_nonempty (cuda_device : str) (acquire : M Path)
    (w w' : World) (text e : str) :
  stages h cuda_device acquire w = (Returned (text, Some e), w') ->
  text = [] /\ truthy e = true.
Proof.
  unfold stages, bind.
  destruct (acquire w) as [[source_path | e0] w1]; [| discriminate].
  destruct (prepare_audio_file h source_path w1) as [[prepared | e1] w2];
    [| discriminate].
  apply run_whisper_cli_error_nonempty.
Qed.

(** The session state a run of the stages leaves, starting from the
    cleared state. *)
Lemma run_stages_state (cuda_device : str) (acquire : M Path) (w : World) :
  let st := (run_stages h cuda_device acquire (mkSession [] []) w).1 in
  match (stages h cuda_device acquire w).1 with
  | Returned (text, None) => st = mkSession text []
  | Returned (_, Some e) => st = mkSession [] e /\ e <> []
  | Raised exc => st = mkSession [] (exn_str exc)
  end.
Proof.
  unfold run_stages.
  destruct (stages h cuda_device acquire w) as [[[text [e |]] | exc] w1] eqn:E;
    cbn [fst opt_truthy transcription last_error]; try reflexivity.
  destruct (stages_error_nonempty _ _ _ _ _ _ E) as [_ He].
  rewrite He. split; [reflexivity | by apply truthy_nonempty].
Qed.

End Controller.

(** C1, the run of the specification's scenario B.  clip.mp4 is
    uploaded, ffmpeg writes clip.wav, whisper-cli writes clip.wav.txt and
    the text comes back; after the run clip.mp4 is still there, and so is
    the transcoded clip.wav: the controller deleted nothing. *)
Theorem run_leaves_transcoded_file :
  let r := main (Scenario.host_working (lit "hello world")) (lit "0")
             FileUploadMode (Some Scenario.clip_mp4) [] Scenario.w0 in
  r.1 = mkSession (lit "hello world") []
  /\ files r.2 !! lit "C:\stt\downloaded\clip.mp4" = Some [0; 0; 0; 24]
  /\ files r.2 !! lit "C:\stt\downloaded\clip.wav" = Some (lit "RIFF")
  /\ map fst (spawned r.2)
     = [ffmpeg_cmd (mkPath Scenario.dl (lit "clip.mp4"))
          (mkPath Scenario.dl (lit "clip.wav"));
        build_command (Scenario.host_working (lit "hello world"))
          (mkPath Scenario.dl (lit "clip.wav"))].
Proof. repeat split; vm_compute; reflexivity. Qed.

(** C2 as stated fails on a transcript that is only white space: the
    engine succeeds, the trimmed text is empty, and the run ends with
    neither a text nor an error. *)
Lemma run_whitespace_transcript_neither_side :
  (main (Scenario.host_working (lit "
   ")) (lit "0") FileUploadMode
     (Some (mkUpload (lit "silence.wav") [82; 73; 70; 70])) [] Scenario.w0).1
  = mkSession [] [].
Proof. vm_compute. reflexivity. Qed.

(** C2, amended.  A run never leaves both a text and an error.  It
    leaves exactly one of them, except that it leaves neither when the
    stages came back without an error and with a text that is empty once
    trimmed, or when a stage raised an exception whose text is empty. *)
Theorem main_result_sides (h : Host) (cuda_device : str)
    (input_mode : InputMode) (uploaded : option UploadedFile)
    (youtube_url : str) (w : World) :
  let st := (main h cuda_device input_mode uploaded youtube_url w).1 in
  (transcription st = [] \/ last_error st = [])
  /\ ((transcription st <> [] \/ last_error st <> [])
      \/ exists acquire,
           match input_mode, uploaded with
           | FileUploadMode, Some uploaded_file =>
             acquire = save_uploaded_file h uploaded_file
           | FileUploadMode, None => False
           | YouTubeURLMode, _ =>
             acquire = download_youtube_audio h (strip youtube_url)
           end
           /\ ((stages h cuda_device acquire w).1 = Returned ([], None)
               \/ exists exc,
                    (stages h cuda_device acquire w).1 = Raised exc
                    /\ exn_str exc = [])).
Proof.
  assert (Hrun : forall acquire,
    let st := (run_stages h cuda_device acquire (mkSession [] []) w).1 in
    (transcription st = [] \/ last_error st = [])
    /\ ((transcription st <> [] \/ last_error st <> [])
        \/ ((stages h cuda_device acquire w).1 = Returned ([], None)
            \/ exists exc,
                 (stages h cuda_device acquire w).1 = Raised exc
                 /\ exn_str exc = []))).
  { intros acquire st. pose proof (run_stages_state h cuda_device acquire w) as Hst.
    fold st in Hst.
    destruct ((stages h cuda_device acquire w).1) as [[text [e |]] | exc].
    - destruct Hst as [-> He]. cbn. split; [by left | left; by right].
    - rewrite Hst. cbn. split; [by right |].
      destruct text as [| c text]; [right; by left | left; by left].
    - rewrite Hst. cbn. split; [by left |].
      destruct (exn_str exc) as [| c m] eqn:E; [| left; by right].
      right. right. by exists exc. }
  unfold main. destruct input_mode.
  - destruct uploaded as [uploaded_file |].
    + destruct (Hrun (save_uploaded_file h uploaded_file)) as [H1 H2].
      split; [exact H1 |]. destruct H2 as [H2 | H2]; [by left | right].
      by exists (save_uploaded_file h uploaded_file).
    + cbn. split; [by left | left; by right].
  - destruct (truthy (strip youtube_url)); cbn [negb].
    + destruct (Hrun (download_youtube_audio h (strip youtube_url))) as [H1 H2].
      split; [exact H1 |]. destruct H2 as [H2 | H2]; [by left | right].
      by exists (download_youtube_audio h (strip youtube_url)).
    + cbn. split; [by left | left; by right].
Qed.

(** * Further properties of the code *)

(** ** [strip], [rfind] and suffixes *)

Lemma rev_is_reverse (s : str) : rev s = reverse s.
Proof. unfold reverse. apply rev_alt. Qed.

Lemma lstrip_head (s : str) (c : N) :
  head (lstrip s) = Some c -> isspace c = false.
Proof.
  induction s as [| a r IH]; simpl; [done |].
  destruct (isspace a) eqn:E; [done |]. simpl. by intros [= <-].
Qed.

(** [lstrip] drops a prefix. *)
Lemma lstrip_suffix (s : str) : exists pre, s = pre ++ lstrip s.
Proof.
  induction s as [| a r [pre IH]]; simpl; [by exists [] |].
  destruct (isspace a).
  - exists (a :: pre). simpl. by rewrite <- IH.
  - by exists [].
Qed.

Lemma strip_last (s : str) (c : N) :
  last (strip s) = Some c -> isspace c = false.
Proof.
  unfold strip, rstrip. rewrite rev_is_reverse, last_reverse.
  apply lstrip_head.
Qed.

Lemma strip_head (s : str) (c : N) :
  head (strip s) = Some c -> isspace c = false.
Proof.
  unfold strip, rstrip. rewrite rev_is_reverse, head_reverse.
  destruct (lstrip_suffix (rev (lstrip s))) as [pre Hpre].
  intros Hlast.
  assert (last (rev (lstrip s)) = Some c) as Hl.
  { rewrite Hpre, last_app, Hlast. done. }
  rewrite rev_is_reverse, last_reverse in Hl.
  by apply lstrip_head in Hl.
Qed.

Lemma strip_all_space (s : str) : forallb isspace s = true -> strip s = [].
Proof.
  intros H. unfold strip, rstrip.
  assert (lstrip s = []) as ->; [| done].
  induction s as [| a r IH]; simpl in *; [done |].
  apply andb_true_iff in H as [-> Hr]. by apply IH.
Qed.

Lemma rfind_dot_None (s : str) : rfind_dot s = None <-> 46 ∉ s.
Proof.
  induction s as [| c r IH]; simpl.
  - split; [intros _; apply not_elem_of_nil | done].
  - rewrite not_elem_of_cons. destruct (rfind_dot r) as [i |].
    + split; [done |]. intros [_ Hr]. by apply IH in Hr.
    + destruct (N.eqb_spec c 46) as [-> | Hc].
      * split; [done | by intros [? _]].
      * split; [| done]. intros _. split; [congruence | by apply IH].
Qed.

(** The last dot of [stem ++ "." ++ ext] when [ext] has no dot. *)
Lemma rfind_dot_app (stem ext : str) :
  46 ∉ ext -> rfind_dot (stem ++ 46 :: ext) = Some (length stem).
Proof.
  intros Hext. apply rfind_dot_None in Hext.
  induction stem as [| c r IH]; simpl.
  - by rewrite Hext.
  - by rewrite IH.
Qed.

Lemma rfind_dot_Some (s : str) (i : nat) :
  rfind_dot s = Some i ->
  s = take i s ++ 46 :: drop (S i) s /\ (46 ∉ drop (S i) s)
  /\ length (take i s) = i.
Proof.
  revert i. induction s as [| c r IH]; simpl; [done |]. intros i.
  destruct (rfind_dot r) as [j |] eqn:E.
  - intros [= <-]. destruct (IH j eq_refl) as (H1 & H2 & H3).
    simpl. rewrite H3. split; [by rewrite <- H1 | done].
  - destruct (N.eqb_spec c 46) as [-> | Hc]; [| done].
    intros [= <-]. simpl. rewrite drop_0. split; [done |].
    split; [by apply rfind_dot_None | done].
Qed.

(** A final component [stem.ext] with non-empty [stem] and non-empty,
    dot-free [ext] has suffix [.ext]. *)
Lemma Path_suffix_app (d stem ext : str) :
  stem <> [] -> ext <> [] -> 46 ∉ ext ->
  Path_suffix (mkPath d (stem ++ 46 :: ext)) = 46 :: ext.
Proof.
  intros Hstem Hext Hdot. unfold Path_suffix. cbn [name].
  rewrite rfind_dot_app by done. rewrite length_app. cbn [length].
  destruct (_ && _) eqn:Hb.
  - by rewrite drop_app_length.
  - exfalso. apply andb_false_iff in Hb. rewrite !Nat.ltb_ge in Hb.
    destruct stem, ext; simpl in *; try done; lia.
Qed.

(** Conversely a non-empty suffix splits the final component that way. *)
Lemma Path_suffix_split (p : Path) :
  Path_suffix p <> [] ->
  exists stem ext,
    name p = stem ++ 46 :: ext /\ stem <> [] /\ ext <> [] /\ (46 ∉ ext)
    /\ Path_suffix p = 46 :: ext.
Proof.
  unfold Path_suffix. destruct (rfind_dot (name p)) as [i |] eqn:E; [| done].
  destruct (rfind_dot_Some _ _ E) as (Hsplit & Hdot & Hlen).
  destruct (_ && _) eqn:Hb; [| done].
  intros _. apply andb_true_iff in Hb as [H0 H1].
  apply Nat.ltb_lt in H0. apply Nat.ltb_lt in H1.
  exists (take i (name p)), (drop (S i) (name p)).
  split; [exact Hsplit |]. split.
  { intros Hnil. rewrite Hnil in Hlen. simpl in Hlen. lia. }
  split.
  { intros Hnil. apply (f_equal length) in Hnil.
    rewrite length_drop in Hnil. simpl in Hnil. lia. }
  split; [exact Hdot |].
  rewrite Hsplit at 1. rewrite <- Hlen at 1. by rewrite drop_app_length.
Qed.

Lemma with_suffix_split (d stem ext suffix : str) :
  stem <> [] -> ext <> [] -> 46 ∉ ext ->
  with_suffix (mkPath d (stem ++ 46 :: ext)) suffix = mkPath d (stem ++ suffix).
Proof.
  intros Hstem Hext Hdot. unfold with_suffix.
  rewrite Path_suffix_app by done. cbn [truthy parent name].
  f_equal. f_equal. rewrite length_app. simpl.
  replace (length stem + S (length ext) - S (length ext))%nat
    with (length stem) by lia.
  by rewrite take_app_length.
Qed.

(** Replacing a non-empty suffix by ".wav" gives a path in the same
    directory whose suffix is ".wav". *)
Lemma with_suffix_wav (p : Path) :
  Path_suffix p <> [] ->
  parent (with_suffix p (lit ".wav")) = parent p
  /\ Path_suffix (with_suffix p (lit ".wav")) = lit ".wav".
Proof.
  intros Hs. destruct (Path_suffix_split p Hs)
    as (stem & ext & Hname & Hstem & Hext & Hdot & _).
  destruct p as [d n]. cbn [name parent] in *. subst n.
  rewrite with_suffix_split by done. split; [done |].
  apply (Path_suffix_app d stem (lit "wav")); [done | done |].
  vm_compute. intros H.
  repeat (inversion H as [| ? ? ? H']; clear H; rename H' into H).
Qed.

(** ** More on [prepare_audio_file] *)

Lemma str_lower_nil (h : Host) : str_lower h [] = [].
Proof. reflexivity. Qed.

Lemma allowed_suffix_nonempty (h : Host) (p : Path) :
  str_lower h (Path_suffix p) ∈ ALLOWED_SUFFIXES -> Path_suffix p <> [].
Proof.
  intros Hin Hnil. rewrite Hnil, str_lower_nil in Hin.
  vm_compute in Hin.
  repeat (inversion Hin as [| ? ? ? H']; clear Hin; rename H' into Hin).
Qed.

(** The sibling ".wav" path is never the input path. *)
Lemma transcode_output_differs (h : Host) (p : Path) :
  str_lower h (Path_suffix p) ∈ ALLOWED_SUFFIXES ->
  str_lower h (Path_suffix p) <> lit ".wav" ->
  path_str (with_suffix p (lit ".wav")) <> path_str p.
Proof.
  intros Hin Hne Heq.
  pose proof (allowed_suffix_nonempty h p Hin) as Hs.
  destruct (Path_suffix_split p Hs)
    as (stem & ext & Hname & Hstem & Hext & Hdot & Hsuf).
  destruct p as [d n]. cbn [name] in Hname. subst n.
  rewrite with_suffix_split in Heq by done.
  apply path_str_inj_name in Heq. apply app_inv_head in Heq.
  apply Hne. rewrite Hsuf, <- Heq. reflexivity.
Qed.

(** X1. Transcoding succeeds when ffmpeg exits with status 0 and the
    sibling file is there, whatever ffmpeg printed: the sibling path comes
    back, it lies in the directory of the input and has suffix ".wav",
    the files are exactly as ffmpeg left them and the only process run is
    ffmpeg -y -i <input> -vn <output>. *)
Theorem prepare_transcode_success (h : Host) (input_path : Path) (w : World)
    (cp : CompletedProcess) (fs' : gmap (list N) (list N)) :
  let suffix := str_lower h (Path_suffix input_path) in
  let output_path := with_suffix input_path (lit ".wav") in
  let cmd := [lit "ffmpeg"; lit "-y"; lit "-i"; path_str input_path;
              lit "-vn"; path_str output_path] in
  suffix ∈ ALLOWED_SUFFIXES -> suffix <> lit ".wav" ->
  os_spawn h w cmd (environ w) = Exited cp fs' ->
  returncode cp = 0%Z ->
  is_Some (fs' !! path_str output_path) ->
  prepare_audio_file h input_path w
  = (Returned output_path,
     mkWorld fs' (environ w) (spawned w ++ [(cmd, environ w)]) (uuids_drawn w))
  /\ parent output_path = parent input_path
  /\ Path_suffix output_path = lit ".wav".
Proof.
  intros suffix output_path cmd Hin Hne Hrun Hrc Hout.
  split; [| by apply with_suffix_wav, (allowed_suffix_nonempty h)].
  rewrite prepare_transcode_eq by done.
  change (ffmpeg_cmd input_path (with_suffix input_path (lit ".wav"))) with cmd.
  rewrite Hrun, Hrc. fold output_path.
  by rewrite (bool_decide_eq_true_2 _ Hout).
Qed.

Lemma prepare_transcode_success_witness :
  (prepare_audio_file (Scenario.host_working [])
     (mkPath Scenario.dl (lit "talk.m4a")) Scenario.w0).1
  = Returned (mkPath Scenario.dl (lit "talk.wav")).
Proof.
  destruct (prepare_transcode_success (Scenario.host_working [])
              (mkPath Scenario.dl (lit "talk.m4a")) Scenario.w0
              (mkCompleted 0 [] [])
              (<[lit "C:\stt\downloaded\talk.wav" := lit "RIFF"]> ∅))
    as (Heq & _).
  - vm_compute. do 3 right. left.
  - vm_compute. discriminate.
  - reflexivity.
  - reflexivity.
  - vm_compute. eauto.
  - rewrite Heq. reflexivity.
Defined.

(** X2. Whatever path [prepare_audio_file] returns has, once lowered,
    the suffix ".wav" and lies in the directory of the input: the engine
    is only ever handed a ".wav" path. *)
Theorem prepare_returns_wav (h : Host) (input_path output_path : Path)
    (w w' : World) :
  prepare_audio_file h input_path w = (Returned output_path, w') ->
  str_lower h (Path_suffix output_path) = lit ".wav"
  /\ parent output_path = parent input_path.
Proof.
  intros Hret.
  destruct (decide (str_lower h (Path_suffix input_path) ∈ ALLOWED_SUFFIXES))
    as [Hin | Hout]; [| by rewrite prepare_unsupported_eq in Hret].
  destruct (decide (str_lower h (Path_suffix input_path) = lit ".wav"))
    as [Hw | Hw].
  - rewrite prepare_wav_eq in Hret by done. by injection Hret as <- <-.
  - rewrite prepare_transcode_eq in Hret by done.
    destruct (with_suffix_wav input_path (allowed_suffix_nonempty h _ Hin))
      as [Hpar Hsuf].
    destruct (os_spawn h w _ _) as [cp fs' | [m | m]]; try discriminate Hret.
    destruct (_ || _); [discriminate Hret |].
    injection Hret as <- <-. by rewrite Hsuf.
Qed.

Lemma prepare_returns_wav_witness :
  str_lower (Scenario.host_working [])
    (Path_suffix (mkPath Scenario.dl (lit "talk.wav"))) = lit ".wav"
  /\ parent (mkPath Scenario.dl (lit "talk.wav")) = Scenario.dl.
Proof.
  apply (prepare_returns_wav (Scenario.host_working [])
           (mkPath Scenario.dl (lit "talk.MP4"))
           (mkPath Scenario.dl (lit "talk.wav")) Scenario.w0
           (prepare_audio_file (Scenario.host_working [])
              (mkPath Scenario.dl (lit "talk.MP4")) Scenario.w0).2).
  vm_compute. reflexivity.
Defined.

(** X3. When a file has to be transcoded, the output path differs from
    the input path, and whatever ffmpeg did, [prepare_audio_file] itself
    leaves the input file as ffmpeg left it: its own clean-up after a
    failure never removes the original. *)
Theorem prepare_keeps_input (h : Host) (input_path : Path) (w : World)
    (cp : CompletedProcess) (fs' : gmap (list N) (list N)) :
  let suffix := str_lower h (Path_suffix input_path) in
  let output_path := with_suffix input_path (lit ".wav") in
  suffix ∈ ALLOWED_SUFFIXES -> suffix <> lit ".wav" ->
  os_spawn h w (ffmpeg_cmd input_path output_path) (environ w) = Exited cp fs' ->
  path_str output_path <> path_str input_path
  /\ files (prepare_audio_file h input_path w).2 !! path_str input_path
     = fs' !! path_str input_path.
Proof.
  intros suffix output_path Hin Hne Hrun.
  pose proof (transcode_output_differs h input_path Hin Hne) as Hdiff.
  split; [exact Hdiff |].
  rewrite prepare_transcode_eq by done. fold output_path. rewrite Hrun.
  destruct (_ || _); cbn [snd files]; [| done].
  by apply lookup_delete_ne.
Qed.

Lemma prepare_keeps_input_witness :
  files (prepare_audio_file Scenario.host_ffmpeg_partial
           (mkPath Scenario.dl (lit "clip.mp4"))
           (mkWorld {[ lit "C:\stt\downloaded\clip.mp4" := [0; 0; 0; 24] ]}
              ∅ [] 0)).2
    !! lit "C:\stt\downloaded\clip.mp4" = Some [0; 0; 0; 24].
Proof.
  destruct (prepare_keeps_input Scenario.host_ffmpeg_partial
              (mkPath Scenario.dl (lit "clip.mp4"))
              (mkWorld {[ lit "C:\stt\downloaded\clip.mp4" := [0; 0; 0; 24] ]}
                 ∅ [] 0)
              (mkCompleted 1 [] (lit "  Invalid data found  "))
              (<[lit "C:\stt\downloaded\clip.wav" := lit "RI"]>
                 {[ lit "C:\stt\downloaded\clip.mp4" := [0; 0; 0; 24] ]}))
    as (_ & Hkeep).
  - vm_compute. do 2 right. left.
  - vm_compute. discriminate.
  - reflexivity.
  - refine (eq_trans Hkeep _). vm_compute. reflexivity.
Defined.

(** X4. When ffmpeg cannot be started, the [FileNotFoundError] of a
    missing executable is replaced by the "ffmpeg not found"
    [RuntimeError], any other operating-system error is let through as it
    is, and in both cases every file is as it was before the call. *)
Theorem prepare_ffmpeg_not_started (h : Host) (input_path : Path) (w : World)
    (e : os_error) :
  let suffix := str_lower h (Path_suffix input_path) in
  let output_path := with_suffix input_path (lit ".wav") in
  suffix ∈ ALLOWED_SUFFIXES -> suffix <> lit ".wav" ->
  os_spawn h w (ffmpeg_cmd input_path output_path) (environ w) = SpawnError e ->
  (prepare_audio_file h input_path w).1
  = Raised (match e with
            | NotFound _ => RuntimeError MSG_FFMPEG_MISSING
            | OtherOSError m => OSError m
            end)
  /\ files (prepare_audio_file h input_path w).2 = files w.
Proof.
  intros suffix output_path Hin Hne Hrun.
  rewrite prepare_transcode_eq by done. fold output_path. rewrite Hrun.
  by destruct e.
Qed.

Lemma prepare_ffmpeg_not_started_witness :
  (prepare_audio_file (Scenario.host_no_spawn true)
     (mkPath Scenario.dl (lit "clip.mp4")) Scenario.w0).1
  = Raised (RuntimeError MSG_FFMPEG_MISSING)
  /\ (prepare_audio_file (Scenario.host_no_spawn false)
        (mkPath Scenario.dl (lit "clip.mp4")) Scenario.w0).1
     = Raised (OSError (lit "[WinError 5]")).
Proof.
  split.
  - apply (prepare_ffmpeg_not_started (Scenario.host_no_spawn true)
             (mkPath Scenario.dl (lit "clip.mp4")) Scenario.w0
             (NotFound (lit "[WinError 2]"))).
    + vm_compute. do 2 right. left.
    + vm_compute. discriminate.
    + reflexivity.
  - apply (prepare_ffmpeg_not_started (Scenario.host_no_spawn false)
             (mkPath Scenario.dl (lit "clip.mp4")) Scenario.w0
             (OtherOSError (lit "[WinError 5]"))).
    + vm_compute. do 2 right. left.
    + vm_compute. discriminate.
    + reflexivity.
Defined.

Lemma Path_suffix_no_dot (p : Path) : 46 ∉ name p -> Path_suffix p = [].
Proof.
  intros H. apply rfind_dot_None in H. unfold Path_suffix. by rewrite H.
Qed.

Lemma Path_suffix_leading_dot (d rest : str) :
  46 ∉ rest -> Path_suffix (mkPath d (46 :: rest)) = [].
Proof.
  intros H. unfold Path_suffix. cbn [name].
  pose proof (rfind_dot_app [] rest H) as E. cbn [app length] in E.
  by rewrite E.
Qed.

Lemma Path_suffix_trailing_dot (d stem : str) :
  Path_suffix (mkPath d (stem ++ [46])) = [].
Proof.
  unfold Path_suffix. cbn [name].
  rewrite (rfind_dot_app stem []) by apply not_elem_of_nil.
  rewrite length_app. cbn [length].
  replace (length stem + 1 - 1)%nat with (length stem) by lia.
  rewrite Nat.ltb_irrefl. by rewrite andb_false_r.
Qed.

(** X5. A file name with no dot at all, a name whose only dot is its
    first character (a file called ".wav" or ".mp3") and a name that ends
    in a dot have an empty suffix: the call raises the unsupported-format
    error with nothing after the colon, and the world is untouched. *)
Theorem prepare_rejects_missing_extension (h : Host) (input_path : Path)
    (w : World) :
  (46 ∉ name input_path
   \/ (exists rest, name input_path = 46 :: rest /\ 46 ∉ rest)
   \/ (exists stem, name input_path = stem ++ [46])) ->
  prepare_audio_file h input_path w
  = (Raised (ValueError MSG_UNSUPPORTED), w).
Proof.
  intros Hname.
  assert (Path_suffix input_path = []) as Hs.
  { destruct input_path as [d n]. cbn [name] in Hname.
    destruct Hname as [H | [(rest & -> & H) | (stem & ->)]].
    - by apply Path_suffix_no_dot.
    - by apply Path_suffix_leading_dot.
    - apply Path_suffix_trailing_dot. }
  rewrite prepare_unsupported_eq; rewrite Hs, str_lower_nil.
  - by rewrite app_nil_r.
  - vm_compute. intros H.
    repeat (inversion H as [| ? ? ? H']; clear H; rename H' into H).
Qed.

Lemma prepare_rejects_missing_extension_witness :
  prepare_audio_file (Scenario.host_working [])
    (mkPath Scenario.dl (lit ".wav")) Scenario.w0
  = (Raised (ValueError MSG_UNSUPPORTED), Scenario.w0)
  /\ prepare_audio_file (Scenario.host_working [])
       (mkPath Scenario.dl (lit "recording")) Scenario.w0
     = (Raised (ValueError MSG_UNSUPPORTED), Scenario.w0).
Proof.
  split.
  - apply (prepare_rejects_missing_extension (Scenario.host_working [])
             (mkPath Scenario.dl (lit ".wav")) Scenario.w0).
    right. left. exists (lit "wav"). split; [reflexivity |].
    vm_compute. intros H.
    repeat (inversion H as [| ? ? ? H']; clear H; rename H' into H).
  - apply (prepare_rejects_missing_extension (Scenario.host_working [])
             (mkPath Scenario.dl (lit "recording")) Scenario.w0).
    left. vm_compute. intros H.
    repeat (inversion H as [| ? ? ? H']; clear H; rename H' into H).
Defined.

(** ** More on [run_whisper_cli] *)

(** X6. When whisper-cli exits with status 0 and the text file is
    there, the call returns the decoded contents of that file, stripped,
    with no error, whatever the process printed; the files are exactly as
    whisper-cli left them, so the text file and the audio file are not
    removed by the call. *)
Theorem whisper_success (h : Host) (audio_path : Path) (cuda_device : str)
    (w : World) (cp : CompletedProcess) (fs' : gmap (list N) (list N))
    (data : list N) :
  let env := <[CUDA_VISIBLE_DEVICES := cuda_device]> (environ w) in
  let txt_path := path_str audio_path ++ lit ".txt" in
  os_spawn h w (build_command h audio_path) env = Exited cp fs' ->
  returncode cp = 0%Z ->
  fs' !! txt_path = Some data ->
  (run_whisper_cli h audio_path cuda_device w).1
  = Returned (strip (decode_text h data), None)
  /\ files (run_whisper_cli h audio_path cuda_device w).2 = fs'.
Proof.
  intros env txt_path Hrun Hrc Htxt.
  rewrite run_whisper_cli_eq. fold env. rewrite Hrun, Hrc.
  cbn [Z.eqb negb fst snd files]. fold txt_path. by rewrite Htxt.
Qed.

Lemma whisper_success_witness :
  (run_whisper_cli (Scenario.host_working (lit "  hello world
"))
     (mkPath Scenario.dl (lit "sample.wav")) (lit "0") Scenario.w0).1
  = Returned (lit "hello world", None).
Proof.
  destruct (whisper_success (Scenario.host_working (lit "  hello world
"))
              (mkPath Scenario.dl (lit "sample.wav")) (lit "0") Scenario.w0
              (mkCompleted 0 [] [])
              (<[lit "C:\stt\downloaded\sample.wav.txt" := lit "  hello world
"]> ∅)
              (lit "  hello world
"))
    as (Heq & _).
  - reflexivity.
  - reflexivity.
  - vm_compute. reflexivity.
  - refine (eq_trans Heq _). vm_compute. reflexivity.
Defined.

(** X7. [run_whisper_cli] has no handler around [subprocess.run]: when
    whisper-cli cannot be started the operating-system error is raised to
    the caller as it is (a [FileNotFoundError] for a missing executable),
    and no file is changed. *)
Theorem whisper_not_started (h : Host) (audio_path : Path) (cuda_device : str)
    (w : World) (e : os_error) :
  os_spawn h w (build_command h audio_path)
    (<[CUDA_VISIBLE_DEVICES := cuda_device]> (environ w)) = SpawnError e ->
  (run_whisper_cli h audio_path cuda_device w).1 = Raised (raise_os e)
  /\ files (run_whisper_cli h audio_path cuda_device w).2 = files w.
Proof.
  intros Hrun. by rewrite run_whisper_cli_eq, Hrun.
Qed.

Lemma whisper_not_started_witness :
  (run_whisper_cli (Scenario.host_no_spawn true)
     (mkPath Scenario.dl (lit "sample.wav")) (lit "0") Scenario.w0).1
  = Raised (FileNotFoundError (lit "[WinError 2]")).
Proof.
  apply (whisper_not_started (Scenario.host_no_spawn true)
           (mkPath Scenario.dl (lit "sample.wav")) (lit "0") Scenario.w0
           (NotFound (lit "[WinError 2]"))).
  reflexivity.
Defined.

(** X8. Whenever [run_whisper_cli] returns, the text has no white space
    at either end, and either there is no error, or the text is empty and
    the error is a non-empty string. *)
Theorem whisper_returned_pair (h : Host) (audio_path : Path)
    (cuda_device : str) (w w' : World) (text : str) (error : option str) :
  run_whisper_cli h audio_path cuda_device w = (Returned (text, error), w') ->
  (forall c, head text = Some c -> isspace c = false)
  /\ (forall c, last text = Some c -> isspace c = false)
  /\ match error with
     | None => True
     | Some e => text = [] /\ e <> []
     end.
Proof.
  rewrite run_whisper_cli_eq.
  destruct (os_spawn h w _ _) as [cp fs' | e]; [| discriminate].
  destruct (returncode cp =? 0)%Z; cbn [negb].
  - destruct (fs' !! _) as [data |]; intros [= <- <- <-].
    + split; [apply strip_head |]. split; [apply strip_last | done].
    + repeat split; done.
  - intros [= <- <- <-]. repeat split; try done.
    apply truthy_nonempty. by apply str_or_truthy_r.
Qed.

Lemma whisper_returned_pair_witness :
  (forall c, head (lit "hello world") = Some c -> isspace c = false)
  /\ (forall c, last (lit "hello world") = Some c -> isspace c = false)
  /\ True.
Proof.
  apply (whisper_returned_pair (Scenario.host_working (lit "  hello world
"))
           (mkPath Scenario.dl (lit "sample.wav")) (lit "0") Scenario.w0
           (run_whisper_cli (Scenario.host_working (lit "  hello world
"))
              (mkPath Scenario.dl (lit "sample.wav")) (lit "0") Scenario.w0).2
           (lit "hello world") None).
  vm_compute. reflexivity.
Defined.

(** ** More on [download_youtube_audio] and [save_uploaded_file] *)

Lemma download_returned (h : Host) (url : str) (w w' : World) (p : Path) :
  download_youtube_audio h url w = (Returned p, w') ->
  p = mkPath (YOUTUBE_DOWNLOAD_DIR h)
        (lit "youtube_" ++ take 8 (uuid4_hex h (uuids_drawn w)) ++ lit ".wav")
  /\ is_Some (files w' !! path_str p).
Proof.
  rewrite download_youtube_audio_eq.
  destruct (os_spawn h _ _ _) as [cp fs' | [m | m]]; try discriminate.
  destruct (negb _); [discriminate |].
  destruct (bool_decide _) eqn:E; [| discriminate].
  intros [= <- <-]. split; [done |]. cbn [files].
  by apply bool_decide_eq_true in E.
Qed.

Lemma youtube_name_suffix (d hex8 : str) :
  Path_suffix (mkPath d (lit "youtube_" ++ hex8 ++ lit ".wav")) = lit ".wav".
Proof.
  change (lit ".wav") with (46 :: lit "wav"). rewrite app_assoc.
  apply Path_suffix_app; [done | done |].
  vm_compute. intros H.
  repeat (inversion H as [| ? ? ? H']; clear H; rename H' into H).
Qed.

(** X9. A path returned by [download_youtube_audio] lies in the
    download directory, is named youtube_<first eight hex digits of the
    UUID>.wav, has suffix ".wav" and names a file that exists; handed to
    [prepare_audio_file] it comes back unchanged without any process
    being run, so a download is never transcoded. *)
Theorem download_returns_wav_file (h : Host) (url : str) (w w' : World)
    (p : Path) :
  download_youtube_audio h url w = (Returned p, w') ->
  parent p = YOUTUBE_DOWNLOAD_DIR h
  /\ name p = lit "youtube_" ++ take 8 (uuid4_hex h (uuids_drawn w))
              ++ lit ".wav"
  /\ Path_suffix p = lit ".wav"
  /\ is_Some (files w' !! path_str p)
  /\ prepare_audio_file h p w' = (Returned p, w').
Proof.
  intros Hret. destruct (download_returned h url w w' p Hret) as [Hp Hfile].
  assert (Path_suffix p = lit ".wav") as Hs.
  { rewrite Hp. apply youtube_name_suffix. }
  split; [by rewrite Hp |]. split; [by rewrite Hp |].
  split; [exact Hs |]. split; [exact Hfile |].
  apply prepare_wav_eq. by rewrite Hs.
Qed.

Lemma download_returns_wav_file_witness :
  parent (mkPath Scenario.dl (lit "youtube_01234567.wav"))
  = YOUTUBE_DOWNLOAD_DIR (Scenario.host_working [])
  /\ name (mkPath Scenario.dl (lit "youtube_01234567.wav"))
     = lit "youtube_"
       ++ take 8 (uuid4_hex (Scenario.host_working [])
                    (uuids_drawn Scenario.w0))
       ++ lit ".wav"
  /\ Path_suffix (mkPath Scenario.dl (lit "youtube_01234567.wav")) = lit ".wav".
Proof.
  destruct (download_returns_wav_file (Scenario.host_working [])
              (lit "https://youtu.be/x") Scenario.w0
              (download_youtube_audio (Scenario.host_working [])
                 (lit "https://youtu.be/x") Scenario.w0).2
              (mkPath Scenario.dl (lit "youtube_01234567.wav")))
    as (Hparent & Hname & Hsuf & _).
  - vm_compute. reflexivity.
  - split; [exact Hparent | split; [exact Hname | exact Hsuf]].
Defined.

(** X10. Only the first eight hex digits of the UUID enter the file
    name: two downloads that return give the same path exactly when their
    UUIDs agree on those digits, whatever the two URLs are. *)
Theorem download_path_from_uuid_prefix (h : Host) (url1 url2 : str)
    (w1 w2 w1' w2' : World) (p1 p2 : Path) :
  download_youtube_audio h url1 w1 = (Returned p1, w1') ->
  download_youtube_audio h url2 w2 = (Returned p2, w2') ->
  (p1 = p2
   <-> take 8 (uuid4_hex h (uuids_drawn w1))
       = take 8 (uuid4_hex h (uuids_drawn w2))).
Proof.
  intros H1 H2.
  destruct (download_returned h url1 w1 w1' p1 H1) as [-> _].
  destruct (download_returned h url2 w2 w2' p2 H2) as [-> _].
  split.
  - intros [= Heq]. by apply app_inv_tail in Heq.
  - by intros ->.
Qed.

Lemma download_path_from_uuid_prefix_witness :
  mkPath Scenario.dl (lit "youtube_01234567.wav")
  = mkPath Scenario.dl (lit "youtube_01234567.wav")
  <-> take 8 (uuid4_hex (Scenario.host_working []) (uuids_drawn Scenario.w0))
      = take 8 (uuid4_hex (Scenario.host_working []) (uuids_drawn Scenario.w0)).
Proof.
  apply (download_path_from_uuid_prefix (Scenario.host_working [])
           (lit "https://youtu.be/x") (lit "https://youtu.be/y")
           Scenario.w0 Scenario.w0
           (download_youtube_audio (Scenario.host_working [])
              (lit "https://youtu.be/x") Scenario.w0).2
           (download_youtube_audio (Scenario.host_working [])
              (lit "https://youtu.be/y") Scenario.w0).2
           (mkPath Scenario.dl (lit "youtube_01234567.wav"))
           (mkPath Scenario.dl (lit "youtube_01234567.wav"))).
  - vm_compute. reflexivity.
  - vm_compute. reflexivity.
Defined.


(** X12. File names come from the upload alone: saving a second upload
    under the name of an earlier one leaves the files exactly as if only
    the second had been saved. *)
Theorem save_uploaded_file_same_name (h : Host) (first second : UploadedFile)
    (w : World) :
  upload_name first = upload_name second ->
  files (save_uploaded_file h second (save_uploaded_file h first w).2).2
  = files (save_uploaded_file h second w).2.
Proof.
  intros Hname. cbn. rewrite Hname. apply insert_insert_eq.
Qed.

Lemma save_uploaded_file_same_name_witness :
  files (save_uploaded_file (Scenario.host_working [])
           (mkUpload (lit "clip.mp4") [9; 9])
           (save_uploaded_file (Scenario.host_working []) Scenario.clip_mp4
              Scenario.w0).2).2
  = files (save_uploaded_file (Scenario.host_working [])
             (mkUpload (lit "clip.mp4") [9; 9]) Scenario.w0).2.
Proof.
  apply (save_uploaded_file_same_name (Scenario.host_working [])
           Scenario.clip_mp4 (mkUpload (lit "clip.mp4") [9; 9]) Scenario.w0).
  reflexivity.
Defined.

(** ** More on the controller *)

Section Run.

Variable h : Host.
Variable cuda_device : str.

(** How a run ends, by the stage that stops it. *)
Lemma run_stages_acquire_raised (acquire : M Path) (w w1 : World) (e : exn) :
  acquire w = (Raised e, w1) ->
  run_stages h cuda_device acquire (mkSession [] []) w
  = (mkSession [] (exn_str e), w1).
Proof.
  intros Ha. unfold run_stages, stages, bind. by rewrite Ha.
Qed.

Lemma run_stages_prepare_raised (acquire : M Path) (w w1 w2 : World)
    (source_path : Path) (e : exn) :
  acquire w = (Returned source_path, w1) ->
  prepare_audio_file h source_path w1 = (Raised e, w2) ->
  run_stages h cuda_device acquire (mkSession [] []) w
  = (mkSession [] (exn_str e), w2).
Proof.
  intros Ha Hp. unfold run_stages, stages, bind. by rewrite Ha, Hp.
Qed.

Lemma run_stages_engine (acquire : M Path) (w w1 w2 : World)
    (source_path prepared : Path) :
  acquire w = (Returned source_path, w1) ->
  prepare_audio_file h source_path w1 = (Returned prepared, w2) ->
  run_stages h cuda_device acquire (mkSession [] []) w
  = match run_whisper_cli h prepared cuda_device w2 with
    | (Returned (text, None), w3) => (mkSession text [], w3)
    | (Returned (_, Some e), w3) => (mkSession [] e, w3)
    | (Raised exc, w3) => (mkSession [] (exn_str exc), w3)
    end.
Proof.
  intros Ha Hp. unfold run_stages, stages, bind. rewrite Ha, Hp.
  destruct (run_whisper_cli h prepared cuda_device w2)
    as [[[text [e |]] | exc] w3] eqn:E; cbn [opt_truthy cleanup foldl];
    try reflexivity.
  destruct (run_whisper_cli_error_nonempty h _ _ _ _ _ _ E) as [_ He].
  by rewrite He.
Qed.

Lemma save_uploaded_file_eq (uploaded_file : UploadedFile) (w : World) :
  save_uploaded_file h uploaded_file w
  = (Returned (mkPath (YOUTUBE_DOWNLOAD_DIR h) (upload_name uploaded_file)),
     mkWorld
       (<[path_str (mkPath (YOUTUBE_DOWNLOAD_DIR h) (upload_name uploaded_file))
          := upload_buffer uploaded_file]> (files w))
       (environ w) (spawned w) (uuids_drawn w)).
Proof. reflexivity. Qed.

End Run.

(** X13. Pressing start without an input does nothing outside the
    session: in upload mode without a file, and in URL mode with a URL
    that is empty or only white space, the matching "first supply ..."
    message is stored and the world is exactly as before (no file
    written, no process run). *)
Theorem main_missing_input (h : Host) (cuda_device : str)
    (uploaded : option UploadedFile) (youtube_url : str) (w : World) :
  main h cuda_device FileUploadMode None youtube_url w
  = (mkSession [] MSG_NO_FILE, w)
  /\ (strip youtube_url = [] ->
      main h cuda_device YouTubeURLMode uploaded youtube_url w
      = (mkSession [] MSG_NO_URL, w)).
Proof.
  split; [reflexivity |]. intros Hblank. unfold main. by rewrite Hblank.
Qed.

Lemma main_missing_input_witness :
  main (Scenario.host_working []) (lit "0") YouTubeURLMode
    (Some Scenario.clip_mp4) (lit "   ") Scenario.w0
  = (mkSession [] MSG_NO_URL, Scenario.w0).
Proof.
  apply (main_missing_input (Scenario.host_working []) (lit "0")
           (Some Scenario.clip_mp4) (lit "   ") Scenario.w0).
  reflexivity.
Defined.

(** X14. In URL mode with a non-blank URL, when yt-dlp cannot be
    located the run ends with the "yt-dlp not found" message, no text, the
    files as they were, and yt-dlp (called with the stripped URL) as the
    only program tried: neither ffmpeg nor whisper-cli is run. *)
Theorem main_downloader_missing (h : Host) (cuda_device : str)
    (uploaded : option UploadedFile) (youtube_url : str) (w : World)
    (m : str) :
  let output_path :=
    mkPath (YOUTUBE_DOWNLOAD_DIR h)
      (lit "youtube_" ++ take 8 (uuid4_hex h (uuids_drawn w)) ++ lit ".wav") in
  let cmd := ytdlp_cmd output_path (strip youtube_url) in
  strip youtube_url <> [] ->
  os_spawn h (mkWorld (files w) (environ w) (spawned w) (S (uuids_drawn w)))
    cmd (environ w) = SpawnError (NotFound m) ->
  let r := main h cuda_device YouTubeURLMode uploaded youtube_url w in
  r.1 = mkSession [] MSG_YTDLP_MISSING
  /\ files r.2 = files w
  /\ spawned r.2 = spawned w ++ [(cmd, environ w)].
Proof.
  intros output_path cmd Hurl Hrun r. subst r. unfold main.
  apply truthy_nonempty in Hurl. rewrite Hurl. cbn [negb].
  erewrite run_stages_acquire_raised.
  2: { rewrite download_youtube_audio_eq. fold output_path. fold cmd.
       rewrite Hrun. reflexivity. }
  done.
Qed.

Lemma main_downloader_missing_witness :
  (main (Scenario.host_no_spawn true) (lit "0") YouTubeURLMode None
     (lit " https://example.com/x ") Scenario.w0).1
  = mkSession [] MSG_YTDLP_MISSING.
Proof.
  destruct (main_downloader_missing (Scenario.host_no_spawn true) (lit "0")
              None (lit " https://example.com/x ") Scenario.w0
              (lit "[WinError 2]")) as (Hst & _).
  - vm_compute. discriminate.
  - reflexivity.
  - exact Hst.
Defined.








Lemma whisper_commands (h : Host) (audio_path : Path) (cuda_device : str)
    (w : World) :
  map fst (spawned (run_whisper_cli h audio_path cuda_device w).2)
  = map fst (spawned w) ++ [build_command h audio_path].
Proof.
  rewrite run_whisper_cli_eq.
  destruct (os_spawn h w _ _); cbn [snd spawned]; by rewrite map_app.
Qed.

Lemma run_stages_engine_commands (h : Host) (cuda_device : str)
    (acquire : M Path) (w w1 w2 : World) (source_path prepared : Path) :
  acquire w = (Returned source_path, w1) ->
  prepare_audio_file h source_path w1 = (Returned prepared, w2) ->
  map fst (spawned (run_stages h cuda_device acquire (mkSession [] []) w).2)
  = map fst (spawned w2) ++ [build_command h prepared].
Proof.
  intros Ha Hp. rewrite (run_stages_engine h cuda_device _ _ _ _ _ _ Ha Hp).
  rewrite <- (whisper_commands h prepared cuda_device w2).
  by destruct (run_whisper_cli h prepared cuda_device w2)
    as [[[text [e |]] | exc] w3].
Qed.

(** X18. In URL mode with a non-blank URL the programs a run starts are
    yt-dlp alone, or yt-dlp followed by whisper-cli on the downloaded
    file: ffmpeg is never run on a download. *)
Theorem main_url_never_transcodes (h : Host) (cuda_device : str)
    (uploaded : option UploadedFile) (youtube_url : str) (w : World) :
  let output_path :=
    mkPath (YOUTUBE_DOWNLOAD_DIR h)
      (lit "youtube_" ++ take 8 (uuid4_hex h (uuids_drawn w)) ++ lit ".wav") in
  let cmd := ytdlp_cmd output_path (strip youtube_url) in
  strip youtube_url <> [] ->
  let r := main h cuda_device YouTubeURLMode uploaded youtube_url w in
  map fst (spawned r.2) = map fst (spawned w) ++ [cmd]
  \/ map fst (spawned r.2)
     = map fst (spawned w) ++ [cmd; build_command h output_path].
Proof.
  intros output_path cmd Hurl r. subst r. unfold main.
  apply truthy_nonempty in Hurl. rewrite Hurl. cbn [negb].
  destruct (download_youtube_audio h (strip youtube_url) w)
    as [[p | e] w1] eqn:Hd.
  - right.
    destruct (download_returned h _ _ _ _ Hd) as [Hp _].
    assert (prepare_audio_file h p w1 = (Returned p, w1)) as Hprep.
    { apply prepare_wav_eq. rewrite Hp, youtube_name_suffix. reflexivity. }
    rewrite (run_stages_engine_commands h cuda_device _ _ _ _ _ _ Hd Hprep).
    fold output_path in Hp. subst p.
    assert (map fst (spawned w1) = map fst (spawned w) ++ [cmd]) as ->.
    { rewrite download_youtube_audio_eq in Hd. fold output_path cmd in Hd.
      destruct (os_spawn h _ cmd _) as [cp fs' | [m | m]];
        injection Hd as _ <-; cbn [spawned]; by rewrite map_app. }
    by rewrite <- app_assoc.
  - left. rewrite (run_stages_acquire_raised h cuda_device _ _ _ _ Hd).
    cbn [snd]. rewrite download_youtube_audio_eq in Hd.
    fold output_path cmd in Hd.
    destruct (os_spawn h _ cmd _) as [cp fs' | [m | m]];
      injection Hd as _ <-; cbn [spawned]; by rewrite map_app.
Qed.

Lemma main_url_never_transcodes_witness :
  map fst (spawned (main (Scenario.host_working (lit "hi")) (lit "0")
                      YouTubeURLMode None (lit "https://youtu.be/x")
                      Scenario.w0).2)
  = map fst (spawned Scenario.w0)
    ++ [ytdlp_cmd
          (mkPath (YOUTUBE_DOWNLOAD_DIR (Scenario.host_working (lit "hi")))
             (lit "youtube_"
              ++ take 8 (uuid4_hex (Scenario.host_working (lit "hi"))
                           (uuids_drawn Scenario.w0))
              ++ lit ".wav"))
          (strip (lit "https://youtu.be/x"))]
  \/ map fst (spawned (main (Scenario.host_working (lit "hi")) (lit "0")
                         YouTubeURLMode None (lit "https://youtu.be/x")
                         Scenario.w0).2)
     = map fst (spawned Scenario.w0)
       ++ [ytdlp_cmd
             (mkPath (YOUTUBE_DOWNLOAD_DIR (Scenario.host_working (lit "hi")))
                (lit "youtube_"
                 ++ take 8 (uuid4_hex (Scenario.host_working (lit "hi"))
                              (uuids_drawn Scenario.w0))
                 ++ lit ".wav"))
             (strip (lit "https://youtu.be/x"));
           build_command (Scenario.host_working (lit "hi"))
             (mkPath (YOUTUBE_DOWNLOAD_DIR (Scenario.host_working (lit "hi")))
                (lit "youtube_"
                 ++ take 8 (uuid4_hex (Scenario.host_working (lit "hi"))
                              (uuids_drawn Scenario.w0))
                 ++ lit ".wav"))].
Proof.
  apply (main_url_never_transcodes (Scenario.host_working (lit "hi"))
           (lit "0") None (lit "https://youtu.be/x") Scenario.w0).
  vm_compute. discriminate.
Defined.





(** X21. In upload mode a run starts no program at all (unsupported
    suffix), or whisper-cli on the saved upload (a ".wav" upload), or
    ffmpeg alone (transcoding did not succeed), or ffmpeg followed by
    whisper-cli on the ".wav" sibling: never more than two programs,
    never yt-dlp, and whisper-cli never on a file that still has to be
    transcoded. *)
Theorem main_upload_processes (h : Host) (cuda_device : str)
    (uploaded_file : UploadedFile) (youtube_url : str) (w : World) :
  let source_path :=
    mkPath (YOUTUBE_DOWNLOAD_DIR h) (upload_name uploaded_file) in
  let output_path := with_suffix source_path (lit ".wav") in
  let r := main h cuda_device FileUploadMode (Some uploaded_file)
             youtube_url w in
  exists cmds,
    map fst (spawned r.2) = map fst (spawned w) ++ cmds
    /\ (cmds = []
        \/ (cmds = [build_command h source_path]
            /\ str_lower h (Path_suffix source_path) = lit ".wav")
        \/ cmds = [ffmpeg_cmd source_path output_path]
        \/ cmds = [ffmpeg_cmd source_path output_path;
                   build_command h output_path]).
Proof.
  intros source_path output_path r. subst r. unfold main.
  pose proof (save_uploaded_file_eq h uploaded_file w) as Hsave.
  fold source_path in Hsave.
  set (w1 := mkWorld _ _ _ _) in Hsave.
  destruct (decide (str_lower h (Path_suffix source_path) ∈ ALLOWED_SUFFIXES))
    as [Hin | Hout].
  2: { exists []. split; [| by left].
       rewrite (run_stages_prepare_raised h cuda_device _ _ _ _ _ _ Hsave
                  (prepare_unsupported_eq h source_path w1 Hout)).
       by rewrite app_nil_r. }
  destruct (decide (str_lower h (Path_suffix source_path) = lit ".wav"))
    as [Hw | Hw].
  { exists [build_command h source_path]. split; [| right; by left].
    by rewrite (run_stages_engine_commands h cuda_device _ _ _ _ _ _ Hsave
                  (prepare_wav_eq h source_path w1 Hw)). }
  pose proof (prepare_transcode_eq h source_path w1 Hin Hw) as Hprep.
  fold output_path in Hprep. cbv zeta in Hprep.
  destruct (os_spawn h w1 (ffmpeg_cmd source_path output_path) (environ w1))
    as [cp fs' | [m | m]].
  - destruct (_ || _).
    + exists [ffmpeg_cmd source_path output_path].
      split; [| right; right; by left].
      rewrite (run_stages_prepare_raised h cuda_device _ _ _ _ _ _ Hsave Hprep).
      cbn [snd spawned]. by rewrite map_app.
    + exists [ffmpeg_cmd source_path output_path; build_command h output_path].
      split; [| by repeat right].
      rewrite (run_stages_engine_commands h cuda_device _ _ _ _ _ _ Hsave Hprep).
      cbn [spawned]. by rewrite map_app, <- app_assoc.
  - exists [ffmpeg_cmd source_path output_path].
    split; [| right; right; by left].
    rewrite (run_stages_prepare_raised h cuda_device _ _ _ _ _ _ Hsave Hprep).
    cbn [snd spawned]. by rewrite map_app.
  - exists [ffmpeg_cmd source_path output_path].
    split; [| right; right; by left].
    rewrite (run_stages_prepare_raised h cuda_device _ _ _ _ _ _ Hsave Hprep).
    cbn [snd spawned]. by rewrite map_app.
Qed.

(** ** [load_config] *)

Lemma check_required_keys (config : json) :
  check_required required_keys config =
  match json_contains (lit "whisper_cli") config with
  | None => Some ConfigTypeError
  | Some false =>
    Some (ConfigValueError
            (MSG_CONFIG_KEY_1 ++ lit "whisper_cli" ++ MSG_CONFIG_KEY_2))
  | Some true =>
    match json_contains (lit "model_path") config with
    | None => Some ConfigTypeError
    | Some false =>
      Some (ConfigValueError
              (MSG_CONFIG_KEY_1 ++ lit "model_path" ++ MSG_CONFIG_KEY_2))
    | Some true => None
    end
  end.
Proof.
  unfold required_keys. cbn [check_required].
  destruct (json_contains (lit "whisper_cli") config) as [[|] |]; try done.
Qed.

(** X22. [load_config] returns a configuration only if config.json
    exists, the parser accepted its contents, the returned value is what
    the parser produced, and both "whisper_cli" and "model_path" are in
    it. *)
Theorem load_config_returned (script_dir : str)
    (json_load : list N -> str + json) (w : World) (config : json) :
  load_config script_dir json_load w = inr config ->
  (exists data,
     files w !! path_str (CONFIG_PATH script_dir) = Some data
     /\ json_load data = inr config)
  /\ json_contains (lit "whisper_cli") config = Some true
  /\ json_contains (lit "model_path") config = Some true.
Proof.
  unfold load_config.
  destruct (files w !! path_str (CONFIG_PATH script_dir)) as [data |].
  2: { by destruct (bool_decide _). }
  destruct (json_load data) as [msg | parsed] eqn:Hparse; [done |].
  rewrite check_required_keys.
  destruct (json_contains (lit "whisper_cli") parsed) as [[|] |] eqn:H1;
    try done.
  destruct (json_contains (lit "model_path") parsed) as [[|] |] eqn:H2;
    try done.
  intros [= <-]. split; [by exists data | done].
Qed.

Lemma load_config_returned_witness :
  json_contains (lit "whisper_cli")
    (JObject [(lit "model_path", JString (lit "m.bin"));
              (lit "whisper_cli", JString (lit "w.exe"))]) = Some true
  /\ json_contains (lit "model_path")
       (JObject [(lit "model_path", JString (lit "m.bin"));
                 (lit "whisper_cli", JString (lit "w.exe"))]) = Some true.
Proof.
  apply (load_config_returned (lit "C:\stt")
           (fun _ => inr (JObject [(lit "model_path", JString (lit "m.bin"));
                                   (lit "whisper_cli", JString (lit "w.exe"))]))
           (mkWorld {[ lit "C:\stt\config.json" := lit "{}" ]} ∅ [] 0)).
  vm_compute. reflexivity.
Defined.

(** X23. Without config.json the call raises [FileNotFoundError] before
    anything is parsed: the result does not depend on the parser, its
    message names the path of config.json, and the advice to copy
    config.example.json is appended exactly when that file exists. *)
Theorem load_config_missing_file (script_dir : str)
    (json_load : list N -> str + json) (w : World) :
  files w !! path_str (CONFIG_PATH script_dir) = None ->
  let missing := MSG_CONFIG_MISSING ++ path_str (CONFIG_PATH script_dir) in
  let hint := [10] ++ lit "'config.example.json'" ++ lit "을 "
              ++ lit "'config.json'" ++ lit "으로 복사한 후 경로를 수정하세요." in
  load_config script_dir json_load w
  = inl (ConfigFileNotFound
           (if bool_decide
                 (is_Some (files w !! path_str (CONFIG_EXAMPLE_PATH script_dir)))
            then missing ++ hint else missing)).
Proof.
  intros Hnone missing hint. unfold load_config. rewrite Hnone.
  destruct (bool_decide _); [| done].
  do 2 f_equal; subst missing hint; rewrite <- ?app_assoc; reflexivity.
Qed.

Lemma load_config_missing_file_witness :
  load_config (lit "C:\stt") (fun _ => inl (lit "unused"))
    (mkWorld {[ lit "C:\stt\config.example.json" := lit "{}" ]} ∅ [] 0)
  = inl (ConfigFileNotFound
           (MSG_CONFIG_MISSING ++ lit "C:\stt\config.json" ++ [10]
            ++ lit "'config.example.json'을 'config.json'으로 복사한 후 경로를 수정하세요.")).
Proof.
  refine (eq_trans
            (load_config_missing_file (lit "C:\stt")
               (fun _ => inl (lit "unused"))
               (mkWorld {[ lit "C:\stt\config.example.json" := lit "{}" ]}
                  ∅ [] 0) _) _).
  - vm_compute. reflexivity.
  - vm_compute. reflexivity.
Defined.

(** X24. For a config.json that parses to an object, only the presence
    of the two keys is checked, in the order whisper_cli, model_path: a
    missing whisper_cli is the error reported even when model_path is
    missing too, a missing model_path is reported otherwise, and an object
    with both keys is returned as parsed, whatever else it holds. *)
Theorem load_config_object (script_dir : str)
    (json_load : list N -> str + json) (w : World) (data : list N)
    (members : list (str * json)) :
  files w !! path_str (CONFIG_PATH script_dir) = Some data ->
  json_load data = inr (JObject members) ->
  load_config script_dir json_load w =
  if bool_decide (lit "whisper_cli" ∈ map fst members) then
    if bool_decide (lit "model_path" ∈ map fst members) then
      inr (JObject members)
    else
      inl (ConfigValueError
             (MSG_CONFIG_KEY_1 ++ lit "model_path" ++ MSG_CONFIG_KEY_2))
  else
    inl (ConfigValueError
           (MSG_CONFIG_KEY_1 ++ lit "whisper_cli" ++ MSG_CONFIG_KEY_2)).
Proof.
  intros Hfile Hparse. unfold load_config.
  rewrite Hfile, Hparse, check_required_keys. cbn [json_contains].
  destruct (bool_decide (lit "whisper_cli" ∈ map fst members)); [| done].
  by destruct (bool_decide (lit "model_path" ∈ map fst members)).
Qed.

Lemma load_config_object_witness :
  load_config (lit "C:\stt")
    (fun _ => inr (JObject [(lit "youtube_download_dir", JNull)]))
    (mkWorld {[ lit "C:\stt\config.json" := lit "{}" ]} ∅ [] 0)
  = inl (ConfigValueError
           (MSG_CONFIG_KEY_1 ++ lit "whisper_cli" ++ MSG_CONFIG_KEY_2)).
Proof.
  refine (eq_trans
            (load_config_object (lit "C:\stt")
               (fun _ => inr (JObject [(lit "youtube_download_dir", JNull)]))
               (mkWorld {[ lit "C:\stt\config.json" := lit "{}" ]} ∅ [] 0)
               (lit "{}") [(lit "youtube_download_dir", JNull)] _ _) _).
  - vm_compute. reflexivity.
  - reflexivity.
  - vm_compute. reflexivity.
Defined.

Lemma json_array_contains (key : str) (items : list json) :
  JString key ∈ items -> json_contains key (JArray items) = Some true.
Proof.
  intros Hin. cbn [json_contains]. f_equal.
  induction items as [| v items IH]; [by apply elem_of_nil in Hin |].
  cbn [existsb]. apply elem_of_cons in Hin as [<- | Hin].
  - by rewrite bool_decide_eq_true_2.
  - rewrite IH by done. apply orb_true_r.
Qed.

(** X25. [load_config] does not check that the configuration is an
    object.  A JSON array that has the two key names among its elements
    passes the test and is returned; null, a boolean or a number makes the
    membership test itself fail with a [TypeError]. *)
Theorem load_config_not_an_object (script_dir : str)
    (json_load : list N -> str + json) (w : World) (data : list N)
    (config : json) :
  files w !! path_str (CONFIG_PATH script_dir) = Some data ->
  json_load data = inr config ->
  (forall items,
     config = JArray items ->
     JString (lit "whisper_cli") ∈ items ->
     JString (lit "model_path") ∈ items ->
     load_config script_dir json_load w = inr config)
  /\ (config = JNull \/ (exists b, config = JBool b)
      \/ (exists token, config = JNumber token) ->
      load_config script_dir json_load w = inl ConfigTypeError).
Proof.
  intros Hfile Hparse. unfold load_config.
  rewrite Hfile, Hparse, check_required_keys. split.
  - intros items -> H1 H2.
    by rewrite (json_array_contains _ _ H1), (json_array_contains _ _ H2).
  - by intros [-> | [[b ->] | [token ->]]].
Qed.

Lemma load_config_not_an_object_witness :
  load_config (lit "C:\stt")
    (fun _ => inr (JArray [JString (lit "model_path");
                           JString (lit "whisper_cli")]))
    (mkWorld {[ lit "C:\stt\config.json" := lit "[]" ]} ∅ [] 0)
  = inr (JArray [JString (lit "model_path"); JString (lit "whisper_cli")])
  /\ load_config (lit "C:\stt") (fun _ => inr (JNumber (lit "42")))
       (mkWorld {[ lit "C:\stt\config.json" := lit "42" ]} ∅ [] 0)
     = inl ConfigTypeError.
Proof.
  split.
  - destruct (load_config_not_an_object (lit "C:\stt")
                (fun _ => inr (JArray [JString (lit "model_path");
                                       JString (lit "whisper_cli")]))
                (mkWorld {[ lit "C:\stt\config.json" := lit "[]" ]} ∅ [] 0)
                (lit "[]")
                (JArray [JString (lit "model_path");
                         JString (lit "whisper_cli")]))
      as (Harr & _).
    + vm_compute. reflexivity.
    + reflexivity.
    + apply (Harr [JString (lit "model_path"); JString (lit "whisper_cli")]).
      * reflexivity.
      * right. left.
      * left.
  - destruct (load_config_not_an_object (lit "C:\stt")
                (fun _ => inr (JNumber (lit "42")))
                (mkWorld {[ lit "C:\stt\config.json" := lit "42" ]} ∅ [] 0)
                (lit "42") (JNumber (lit "42")))
      as (_ & Hscalar).
    + vm_compute. reflexivity.
    + reflexivity.
    + apply Hscalar. right. right. by exists (lit "42").
Defined.
